(** * PDF rendering request pipeline of the puppeteer PDF server

    A shallow embedding of [src/app.ts] (the two route handlers,
    [createPDFHttpHeader], [getImageBase64]) and of the preset table of
    [src/pdf-options/presets/default.ts].

    The handlers are written in a small state-and-exception monad.  The state
    holds the JavaScript heap of [PDFOptions] objects (the handlers assign to
    fields of the object that [server.getPDFOptions] returns) and the trace of
    calls made to the outside world.  Everything the handlers call but do not
    define (cheerio, axios, the puppeteer page, the page pool, the preset
    plugin) is gathered in the record [Env].  The [console.error] calls of the
    [catch] blocks are left out: they change neither the reply nor the heap. *)

From Stdlib Require Import NArith ZArith Lia Strings.Byte Strings.Ascii Strings.String.
From stdpp Require Import gmap strings list fin_maps.

Set Warnings "-register-all".

(** ** Base64, as produced by [Buffer.toString('base64')] (RFC 4648, padded) *)

Module Base64.

Definition alphabet : string :=
  "ABCDEFGHIJKLMNOPQRSTUVWXYZabcdefghijklmnopqrstuvwxyz0123456789+/".

Definition pad : ascii := "="%char.

Definition encode_sextet (n : N) : ascii :=
  nth (N.to_nat n) (list_ascii_of_string alphabet) pad.

Fixpoint index_of (c : ascii) (cs : list ascii) (i : N) : option N :=
  match cs with
  | [] => None
  | d :: ds => if Ascii.eqb c d then Some i else index_of c ds (N.succ i)
  end.

Definition decode_char (c : ascii) : option N :=
  index_of c (list_ascii_of_string alphabet) 0%N.

(** Three octets as one 24-bit number, big-endian. *)
Definition group3 (a b c : byte) : N :=
  (Byte.to_N a * 65536 + Byte.to_N b * 256 + Byte.to_N c)%N.

(** The [k]-th group of six bits of a 24-bit number, from the top. *)
Definition sextet (k : N) (n : N) : N := ((n / 64 ^ (3 - k)) mod 64)%N.

Definition x00 : byte := Byte.x00.

Fixpoint encode (bs : list byte) : string :=
  match bs with
  | [] => ""
  | [a] =>
      let n := group3 a x00 x00 in
      String (encode_sextet (sextet 0 n)) (String (encode_sextet (sextet 1 n))
        (String pad (String pad "")))
  | [a; b] =>
      let n := group3 a b x00 in
      String (encode_sextet (sextet 0 n)) (String (encode_sextet (sextet 1 n))
        (String (encode_sextet (sextet 2 n)) (String pad "")))
  | a :: b :: c :: rest =>
      let n := group3 a b c in
      String (encode_sextet (sextet 0 n)) (String (encode_sextet (sextet 1 n))
        (String (encode_sextet (sextet 2 n)) (String (encode_sextet (sextet 3 n))
          (encode rest))))
  end.

(** The decoder is not part of the server: it is the reference decoder
    against which the payload of the data URI is read back. *)
Definition octet (k : N) (n : N) : option byte :=
  Byte.of_N ((n / 256 ^ (2 - k)) mod 256)%N.

Definition ungroup (s0 s1 s2 s3 : N) : N :=
  (s0 * 262144 + s1 * 4096 + s2 * 64 + s3)%N.

Fixpoint decode (s : string) : option (list byte) :=
  match s with
  | "" => Some []
  | String c0 (String c1 (String c2 (String c3 rest))) =>
      s0 ← decode_char c0;
      s1 ← decode_char c1;
      if Ascii.eqb c2 pad then
        if Ascii.eqb c3 pad && String.eqb rest "" then
          a ← octet 0 (ungroup s0 s1 0 0);
          Some [a]
        else None
      else
        s2 ← decode_char c2;
        if Ascii.eqb c3 pad then
          if String.eqb rest "" then
            a ← octet 0 (ungroup s0 s1 s2 0);
            b ← octet 1 (ungroup s0 s1 s2 0);
            Some [a; b]
          else None
        else
          s3 ← decode_char c3;
          a ← octet 0 (ungroup s0 s1 s2 s3);
          b ← octet 1 (ungroup s0 s1 s2 s3);
          c ← octet 2 (ungroup s0 s1 s2 s3);
          tl ← decode rest;
          Some (a :: b :: c :: tl)
  | _ => None
  end.

End Base64.

(** ** The DOM that cheerio builds, and the three cheerio calls of the handlers *)

Module Cheerio.

Inductive Node : Type :=
| Element (name : string) (attribs : list (string * string)) (children : list Node)
| Text (data : string).

(** A loaded document: the nodes under the root. *)
Definition Dom : Type := list Node.

(** [elem.attribs[name]] *)
Fixpoint getAttr (name : string) (attribs : list (string * string)) : option string :=
  match attribs with
  | [] => None
  | (k, v) :: rest => if String.eqb k name then Some v else getAttr name rest
  end.

(** [elem.attribs[name] = value]: an existing key keeps its place, a new
    key goes last. *)
Fixpoint setAttr (name value : string) (attribs : list (string * string))
  : list (string * string) :=
  match attribs with
  | [] => [(name, value)]
  | (k, v) :: rest =>
      if String.eqb k name then (k, value) :: rest
      else (k, v) :: setAttr name value rest
  end.

(** [$('img')]: the attributes of every [img] element, in document order. *)
Fixpoint select_img_node (n : Node) : list (list (string * string)) :=
  match n with
  | Element name attribs children =>
      (if String.eqb name "img" then [attribs] else []) ++
      flat_map select_img_node children
  | Text _ => []
  end.

Definition select_img (d : Dom) : list (list (string * string)) :=
  flat_map select_img_node d.

(** [selection.attr(name)]: the attribute of the first matched element,
    [undefined] when nothing matched or the attribute is missing. *)
Definition attr (name : string) (selection : list (list (string * string)))
  : option string :=
  match selection with
  | [] => None
  | attribs :: _ => getAttr name attribs
  end.

(** [$('img').attr(name, value)]: the attribute is set on every matched
    element of the document. *)
Fixpoint img_attr_set_node (name value : string) (n : Node) : Node :=
  match n with
  | Element tag attribs children =>
      Element tag
        (if String.eqb tag "img" then setAttr name value attribs else attribs)
        (map (img_attr_set_node name value) children)
  | Text data => Text data
  end.

Definition img_attr_set (name value : string) (d : Dom) : Dom :=
  map (img_attr_set_node name value) d.

End Cheerio.

(** ** puppeteer's [PDFOptions], as far as the preset table and the handlers use it *)

Module Puppeteer.

Record PDFMargin : Type := mkPDFMargin {
  top : string;
  bottom : string;
  left : string;
  right : string;
}.

Record PDFOptions : Type := mkPDFOptions {
  format : option string;
  landscape : option bool;
  margin : option PDFMargin;
  printBackground : option bool;
  displayHeaderFooter : option bool;
  headerTemplate : option string;
  footerTemplate : option string;
}.

(** [{}] *)
Definition empty : PDFOptions :=
  mkPDFOptions None None None None None None None.

Definition set_displayHeaderFooter (v : bool) (o : PDFOptions) : PDFOptions :=
  mkPDFOptions (format o) (landscape o) (margin o) (printBackground o)
    (Some v) (headerTemplate o) (footerTemplate o).

Definition set_headerTemplate (v : string) (o : PDFOptions) : PDFOptions :=
  mkPDFOptions (format o) (landscape o) (margin o) (printBackground o)
    (displayHeaderFooter o) (Some v) (footerTemplate o).

Definition set_footerTemplate (v : string) (o : PDFOptions) : PDFOptions :=
  mkPDFOptions (format o) (landscape o) (margin o) (printBackground o)
    (displayHeaderFooter o) (headerTemplate o) (Some v).

(** What a page was asked to show before [page.pdf] is called. *)
Inductive Content : Type :=
| FromUrl (url : string)
| FromHtml (html : string).

End Puppeteer.

Abbreviation PDFOptions := Puppeteer.PDFOptions.
Abbreviation PDFMargin := Puppeteer.PDFMargin.

(** ** [src/pdf-options/presets/default.ts] *)

Section Presets.

(** The three constants come from [config.ts]. *)
Variable DEFAULT_PDF_OPTION_FORMAT : string.
Variable DEFAULT_PDF_OPTION_LANDSCAPE : bool.
Variable DEFAULT_PDF_OPTION_MARGIN : string.

Definition defaultMargin : PDFMargin :=
  Puppeteer.mkPDFMargin DEFAULT_PDF_OPTION_MARGIN DEFAULT_PDF_OPTION_MARGIN
    DEFAULT_PDF_OPTION_MARGIN DEFAULT_PDF_OPTION_MARGIN.

Definition PresetPDFOptions : list (string * PDFOptions) :=
  [ ("DEFAULT",
     Puppeteer.mkPDFOptions (Some DEFAULT_PDF_OPTION_FORMAT)
       (Some DEFAULT_PDF_OPTION_LANDSCAPE) (Some defaultMargin) (Some true)
       None None None);
    ("A4",
     Puppeteer.mkPDFOptions (Some "a4") None (Some defaultMargin) (Some true)
       None None None);
    ("A3",
     Puppeteer.mkPDFOptions (Some "a3") None (Some defaultMargin) (Some true)
       None None None);
    ("A4L",
     Puppeteer.mkPDFOptions (Some "a4") (Some true) (Some defaultMargin) (Some true)
       None None None);
    ("A3L",
     Puppeteer.mkPDFOptions (Some "a3") (Some true) (Some defaultMargin) (Some true)
       None None None);
    ("nomargin",
     Puppeteer.mkPDFOptions (Some "a4") (Some false)
       (Some (Puppeteer.mkPDFMargin "0mm" "0mm" "0mm" "0mm")) (Some true)
       None None None);
    ("bottommargin",
     Puppeteer.mkPDFOptions (Some "a4") (Some false)
       (Some (Puppeteer.mkPDFMargin "0mm" "0.5cm" "0mm" "0mm")) (Some true)
       None None None);
    ("landscape",
     Puppeteer.mkPDFOptions (Some "a4") (Some true)
       (Some (Puppeteer.mkPDFMargin "0mm" "0mm" "0mm" "0mm")) (Some true)
       None None None);
    ("A4headerfooter",
     Puppeteer.mkPDFOptions (Some "a4") None
       (Some (Puppeteer.mkPDFMargin "40mm" "30mm" "0.5cm" "0.5cm")) (Some true)
       (Some true) None None) ].

End Presets.

(** ** JavaScript values and the HTTP reply *)

(** A thrown value. *)
Inductive Error : Type :=
| JsError (message : string).

(** [if (x)] for [x : string | undefined | null], and for [x ?? false]: the
    string itself when the test passes. *)
Definition truthy (x : option string) : option string :=
  match x with
  | Some s => if String.eqb s "" then None else Some s
  | None => None
  end.

(** [x ?? d] *)
Definition nullish (x : option string) (d : string) : string :=
  match x with
  | Some s => s
  | None => d
  end.

Inductive Json : Type :=
| JString (s : string)
| JError (e : Error)
| JObject (fields : list (string * Json)).

Inductive HeaderValue : Type :=
| HString (s : string)
| HNumber (n : nat).

Inductive Payload : Type :=
| SendJson (j : Json)
| SendBuffer (b : list byte).

(** The fastify reply object: status code (200 until [reply.code] is
    called), headers set by the handler, and what [reply.send] was given. *)
Record Reply : Type := mkReply {
  statusCode : nat;
  headers : list (string * HeaderValue);
  sent : option Payload;
}.

Definition new_reply : Reply := mkReply 200 [] None.

Definition reply_code (c : nat) (r : Reply) : Reply :=
  mkReply c (headers r) (sent r).

Definition reply_headers (h : list (string * HeaderValue)) (r : Reply) : Reply :=
  mkReply (statusCode r) (headers r ++ h) (sent r).

Definition reply_send (p : Payload) (r : Reply) : Reply :=
  mkReply (statusCode r) (headers r) (Some p).

(** [createPDFHttpHeader] *)
Definition createPDFHttpHeader (buffer : list byte) : list (string * HeaderValue) :=
  [ ("Content-Type", HString "application/pdf");
    ("Content-Length", HNumber (length buffer));
    ("Cache-Control", HString "no-cache, no-store, must-revalidate");
    ("Pragma", HString "no-cache");
    ("Expires", HNumber 0) ].

Fixpoint header_lookup (name : string) (h : list (string * HeaderValue))
  : option HeaderValue :=
  match h with
  | [] => None
  | (k, v) :: rest => if String.eqb k name then Some v else header_lookup name rest
  end.

(** The query string of [GET /] and the body of [POST /]
    ([GetQuerystring], [PostBody]); an absent or null field is [None]. *)
Record GetQuerystring : Type := mkGetQuerystring {
  q_url : option string;
  q_pdf_option : option string;
  q_header : option string;
  q_footer : option string;
}.

Record PostBody : Type := mkPostBody {
  b_html : option string;
  b_pdf_option : option string;
  b_header : option string;
  b_footer : option string;
}.

(** ** State, events and the monad of the handlers *)

(** Calls that leave the handler, in the order they are made. *)
Inductive Event : Type :=
| EvRunOnPage
| EvGoto (url : string)
| EvSetContent (html : string)
| EvGetPDFOptions (name : string)
| EvAxiosGet (url : string)
| EvPdf (content : Puppeteer.Content) (options : PDFOptions).

(** The heap maps the address of an options object to its fields; an address
    outside the heap stands for [undefined]. *)
Record State : Type := mkState {
  heap : gmap nat PDFOptions;
  trace : list Event;
}.

(** The state after further calls, and after a write to the object at [l]. *)
Definition log (ev : list Event) (st : State) : State :=
  mkState (heap st) (trace st ++ ev).

Definition store (l : nat) (o : PDFOptions) (st : State) : State :=
  mkState (<[l := o]> (heap st)) (trace st).

Definition M (A : Type) : Type := State -> (Error + A) * State.

Definition ret {A : Type} (a : A) : M A := fun st => (inr a, st).

Definition bind {A B : Type} (m : M A) (k : A -> M B) : M B :=
  fun st =>
    match m st with
    | (inr a, st') => k a st'
    | (inl e, st') => (inl e, st')
    end.

Definition throw {A : Type} (e : Error) : M A := fun st => (inl e, st).

(** [try { m } catch (error) { h error }] *)
Definition try_catch {A : Type} (m : M A) (h : Error -> M A) : M A :=
  fun st =>
    match m st with
    | (inr a, st') => (inr a, st')
    | (inl e, st') => h e st'
    end.

Definition emit (ev : Event) : M unit :=
  fun st => (inr tt, log [ev] st).

Definition lift {A : Type} (r : Error + A) : M A := fun st => (r, st).

Notation "'let*' x ':=' m 'in' k" := (bind m (fun x => k))
  (at level 10, x name, m at level 100, k at level 200).
Notation "m '>>' k" := (bind m (fun _ => k))
  (at level 100, k at level 200, right associativity).

(** [obj.field = v] on the object at address [l]; assigning to a field of
    [undefined] throws a [TypeError]. *)
Definition assign (l : nat) (f : PDFOptions -> PDFOptions) : M unit :=
  fun st =>
    match heap st !! l with
    | Some o => (inr tt, store l (f o) st)
    | None => (inl (JsError "TypeError: Cannot set properties of undefined"), st)
    end.

(** The options object a call receives; [undefined] is read as [{}]. *)
Definition deref (l : nat) : M PDFOptions :=
  fun st => (inr (default Puppeteer.empty (heap st !! l)), st).

(** ** What the handlers call but do not define *)

Record Env : Type := mkEnv {
  (** [cheerio.load(fragment)] and [$.html()] *)
  dom_of : string -> Cheerio.Dom;
  html_of : Cheerio.Dom -> string;
  (** the outcome of [axios.get(url, { responseType: 'arraybuffer', ... })]:
      the body, or the error axios throws *)
  http_get : string -> Error + list byte;
  (** the outcome of [page.goto(url)] *)
  navigate : string -> Error + unit;
  (** the outcome of [page.setContent(html, { waitUntil: ['domcontentloaded'] })] *)
  set_content : string -> Error + unit;
  (** the outcome of [page.pdf(options)] on a page showing [content] *)
  render : Puppeteer.Content -> PDFOptions -> Error + list byte;
  (** the outcome of [server.getPDFOptions(name)]: the address of the
      options object it returns *)
  preset_of : string -> Error + nat;
}.

Section Handlers.

Variable env : Env.
Variable defaultPresetPdfOptionsName : string.

Definition page_goto (url : string) : M unit :=
  emit (EvGoto url) >> lift (navigate env url).

Definition page_setContent (html : string) : M unit :=
  emit (EvSetContent html) >> lift (set_content env html).

Definition page_pdf (content : Puppeteer.Content) (pdfOptions : nat) : M (list byte) :=
  let* o := deref pdfOptions in
  emit (EvPdf content o) >>
  lift (render env content o).

Definition getPDFOptions (name : string) : M nat :=
  emit (EvGetPDFOptions name) >> lift (preset_of env name).

(** [server.runOnPage(job)]: the job is handed to the page pool, which runs
    it on a leased page. *)
Definition runOnPage {A : Type} (job : M A) : M A :=
  emit EvRunOnPage >> job.

(** [getImageBase64]: the [catch] logs and rethrows the error it caught. *)
Definition getImageBase64 (url : string) : M string :=
  try_catch
    (emit (EvAxiosGet url) >>
     let* data := lift (http_get env url) in
     ret (Base64.encode data))
    (fun error => throw error).

(** Lines 139-149 (header) and 155-165 (footer) of [app.ts], up to the
    value of [$.html()]. *)
Definition inline_images (fragment : string) : M string :=
  let dom := dom_of env fragment in
  let imgElement := Cheerio.select_img dom in
  let* dom' :=
    (if 0 <? length imgElement then
       match Cheerio.attr "src" imgElement with
       | Some imgUrl =>
           let* imgBase64 := getImageBase64 imgUrl in
           ret (Cheerio.img_attr_set "src"
                  ("data:image/png;base64," +:+ imgBase64) dom)
       | None => ret dom
       end
     else ret dom) in
  ret (html_of env dom').

(** The [if (header) { ... }] and [if (footer) { ... }] blocks of the GET
    handler; they differ in the field that receives the template. *)
Definition apply_fragment (pdfOptions : nat) (fragment : option string)
    (set_template : string -> PDFOptions -> PDFOptions) : M unit :=
  match truthy fragment with
  | Some f =>
      assign pdfOptions (Puppeteer.set_displayHeaderFooter true) >>
      let* template := inline_images f in
      assign pdfOptions (set_template template)
  | None => ret tt
  end.

(** The job the GET handler passes to [server.runOnPage]. *)
Definition get_job (url pdfOptionsQuery : string) (query : GetQuerystring)
  : M (list byte) :=
  page_goto url >>
  let* pdfOptions := getPDFOptions pdfOptionsQuery in
  apply_fragment pdfOptions (q_header query) Puppeteer.set_headerTemplate >>
  apply_fragment pdfOptions (q_footer query) Puppeteer.set_footerTemplate >>
  page_pdf (Puppeteer.FromUrl url) pdfOptions.

Definition pdf_reply (buffer : list byte) : Reply :=
  reply_send (SendBuffer buffer) (reply_headers (createPDFHttpHeader buffer) new_reply).

(** [server.get('/')] *)
Definition get_handler (query : GetQuerystring) : M Reply :=
  match truthy (q_url query) with
  | None =>
      ret (reply_send (SendJson (JObject [("error", JString "url is required")]))
             (reply_code 400 new_reply))
  | Some url =>
      let pdfOptionsQuery := nullish (q_pdf_option query) defaultPresetPdfOptionsName in
      try_catch
        (let* buffer := runOnPage (get_job url pdfOptionsQuery query) in
         ret (pdf_reply buffer))
        (fun error =>
           ret (reply_send
                  (SendJson (JObject [("error", JError error); ("url", JString url)]))
                  (reply_code 500 new_reply)))
  end.

(** The [if (header) { ... }] and [if (footer) { ... }] blocks of the POST
    handler. *)
Definition apply_literal (pdfOptions : nat) (fragment : option string)
    (set_template : string -> PDFOptions -> PDFOptions) : M unit :=
  match truthy fragment with
  | Some f =>
      assign pdfOptions (Puppeteer.set_displayHeaderFooter true) >>
      assign pdfOptions (set_template f)
  | None => ret tt
  end.

(** The job the POST handler passes to [server.runOnPage]. *)
Definition post_job (html : string) (pdfOptions : nat) : M (list byte) :=
  page_setContent html >>
  page_pdf (Puppeteer.FromHtml html) pdfOptions.

(** [server.post('/')]; [None] is an absent request body. *)
Definition post_handler (request_body : option PostBody) : M Reply :=
  match request_body with
  | None =>
      ret (reply_send (SendJson (JObject [("error", JString "request body is empty")]))
             (reply_code 400 new_reply))
  | Some body =>
      match truthy (Some (nullish (b_html body) "")) with
      | None =>
          ret (reply_send (SendJson (JObject [("error", JString "html is required")]))
                 (reply_code 400 new_reply))
      | Some html =>
          let pdfOptionsQuery := nullish (b_pdf_option body) defaultPresetPdfOptionsName in
          let* pdfOptions := getPDFOptions pdfOptionsQuery in
          apply_literal pdfOptions (b_header body) Puppeteer.set_headerTemplate >>
          apply_literal pdfOptions (b_footer body) Puppeteer.set_footerTemplate >>
          try_catch
            (let* buffer := runOnPage (post_job html pdfOptions) in
             ret (pdf_reply buffer))
            (fun error =>
               ret (reply_send (SendJson (JObject [("error", JError error)]))
                      (reply_code 500 new_reply)))
      end
  end.

End Handlers.

(** ** The preset registry *)

(** Modelled from the spec: the policy for a preset name that is not in the
    table.  The preset plugin ([plugins/pdf-options], which decorates the
    server with [getPDFOptions] and [getPresetPDFOptions]) is not among the
    sources; the spec asks for one fixed policy, rejection or fallback to the
    default preset. *)
Inductive UnknownPolicy : Type :=
| RejectUnknown
| FallBackToDefault.

(** Modelled from the spec: the preset registry of the missing plugin, a
    table from preset name to the options object stored under that name (its
    address on the heap), with the configured default name. *)
Record Registry : Type := mkRegistry {
  table : gmap string nat;
  default_name : string;
  unknown : UnknownPolicy;
}.

(** Modelled from the spec: the name resolution of the missing plugin, a
    function of the loaded table without side effects: which stored record a
    preset name stands for.  An absent name stands for the default name; a
    name that is not in the table follows the policy.  The result is the
    address of the stored record.  What a caller of [getPDFOptions] is handed
    is not decided here: by the spec it is a copy of that record, see
    [hands_out_copies]. *)
Definition resolve (reg : Registry) (name : option string) : Error + nat :=
  match table reg !! nullish name (default_name reg) with
  | Some l => inr l
  | None =>
      match unknown reg with
      | RejectUnknown => inl (JsError "unknown preset")
      | FallBackToDefault =>
          match table reg !! default_name reg with
          | Some l => inr l
          | None => inl (JsError "no default preset")
          end
      end
  end.

(** Modelled from the spec: loading the table at start.  Every entry of the
    preset file becomes one object on the heap; a later entry with the same
    key replaces an earlier one, as in an object literal. *)
Fixpoint load_presets (entries : list (string * PDFOptions)) (next : nat)
    (acc : gmap string nat * gmap nat PDFOptions)
  : gmap string nat * gmap nat PDFOptions :=
  match entries with
  | [] => acc
  | (name, o) :: rest =>
      load_presets rest (S next) (<[name := next]> (fst acc), <[next := o]> (snd acc))
  end.


(** ** Vocabulary of the statements *)

(** The URL that the inlining of a fragment fetches, if any. *)
Definition image_url (env : Env) (fragment : string) : option string :=
  let imgElement := Cheerio.select_img (dom_of env fragment) in
  if 0 <? length imgElement then Cheerio.attr "src" imgElement else None.

Definition data_uri (data : list byte) : string :=
  "data:image/png;base64," +:+ Base64.encode data.

(** The fields of an options record that no handler assigns. *)
Definition same_layout (o o' : PDFOptions) : Prop :=
  Puppeteer.format o = Puppeteer.format o' /\
  Puppeteer.landscape o = Puppeteer.landscape o' /\
  Puppeteer.margin o = Puppeteer.margin o' /\
  Puppeteer.printBackground o = Puppeteer.printBackground o'.

(** One [if (header) { ... }] block of the POST handler, as a function on the
    fields of the object. *)
Definition overlay (fragment : option string)
    (set_template : string -> PDFOptions -> PDFOptions) (o : PDFOptions) : PDFOptions :=
  match truthy fragment with
  | Some f => set_template f (Puppeteer.set_displayHeaderFooter true o)
  | None => o
  end.

(** The object at an address before and after: still there or still absent,
    with the same layout fields. *)
Definition layout_kept (before after : option PDFOptions) : Prop :=
  match before, after with
  | Some o, Some o' => same_layout o o'
  | None, None => True
  | _, _ => False
  end.

(** Heaps that agree everywhere but at [l], where the object, if there is
    one, keeps its layout fields. *)
Definition heap_frame (l : nat) (h h' : gmap nat PDFOptions) : Prop :=
  (forall l', l' <> l -> h' !! l' = h !! l') /\
  layout_kept (h !! l) (h' !! l).









(** ** A small world to run the handlers in *)

Module Sample.

Definition quote : string := String "'"%char "".

Fixpoint html_attribs (attribs : list (string * string)) : string :=
  match attribs with
  | [] => ""
  | (k, v) :: rest => " " +:+ k +:+ "=" +:+ quote +:+ v +:+ quote +:+ html_attribs rest
  end.

Fixpoint html_node (n : Cheerio.Node) : string :=
  match n with
  | Cheerio.Element name attribs children =>
      "<" +:+ name +:+ html_attribs attribs +:+ ">" +:+
      (fix go (ns : list Cheerio.Node) : string :=
         match ns with
         | [] => ""
         | m :: ms => html_node m +:+ go ms
         end) children +:+
      "</" +:+ name +:+ ">"
  | Cheerio.Text data => data
  end.

Fixpoint html (d : Cheerio.Dom) : string :=
  match d with
  | [] => ""
  | n :: ns => html_node n +:+ html ns
  end.

Definition logo_url : string := "http://cdn.test/logo.png".
Definition seal_url : string := "http://cdn.test/seal.png".

Definition one_image : string := "<img src='http://cdn.test/logo.png'>".
Definition two_images : string :=
  "<img src='http://cdn.test/logo.png'><img src='http://cdn.test/seal.png'>".
Definition image_without_src : string := "<img alt='logo'>".
Definition no_image : string := "<div>H</div>".

(** A parser that knows the four fragments above. *)
Definition load (fragment : string) : Cheerio.Dom :=
  if String.eqb fragment one_image then
    [Cheerio.Element "img" [("src", logo_url)] []]
  else if String.eqb fragment two_images then
    [Cheerio.Element "img" [("src", logo_url)] [];
     Cheerio.Element "img" [("src", seal_url)] []]
  else if String.eqb fragment image_without_src then
    [Cheerio.Element "img" [("alt", "logo")] []]
  else if String.eqb fragment no_image then
    [Cheerio.Element "div" [] [Cheerio.Text "H"]]
  else [Cheerio.Text fragment].

Definition logo_bytes : list byte := [Byte.x89; Byte.x50; Byte.x4e; Byte.x47].

Definition get (url : string) : Error + list byte :=
  if String.eqb url logo_url then inr logo_bytes
  else inl (JsError "connect ECONNREFUSED").

Definition goto (url : string) : Error + unit :=
  if String.eqb url "http://down.test/" then inl (JsError "net::ERR_CONNECTION_REFUSED")
  else inr tt.

Definition pdf_bytes : list byte := [Byte.x25; Byte.x50; Byte.x44; Byte.x46].

Definition presets : gmap string nat * gmap nat PDFOptions :=
  load_presets (PresetPDFOptions "a4" false "10mm") 0 (∅, ∅).

Definition registry : Registry :=
  mkRegistry (fst presets) "DEFAULT" FallBackToDefault.

(** In this world [getPDFOptions] hands out the stored object itself. *)
Definition env : Env :=
  mkEnv load html get goto (fun _ => inr tt) (fun _ _ => inr pdf_bytes)
    (fun name => resolve registry (Some name)).

(** The server after start: the presets are loaded, nothing has happened. *)
Definition start : State := mkState (snd presets) [].

Definition site : string := "http://site.test/".

(** [GET /?url=http://site.test/&pdf_option=A4&header=<img src=...>] *)
Definition by_url_with_logo : GetQuerystring :=
  mkGetQuerystring (Some site) (Some "A4") (Some one_image) None.

(** [GET /?url=http://down.test/] *)
Definition by_url_down : GetQuerystring :=
  mkGetQuerystring (Some "http://down.test/") None None None.

(** [POST /] with [{"html": "<p>hi</p>", "header": "<div>H</div>"}] *)
Definition by_html_with_header : PostBody :=
  mkPostBody (Some "<p>hi</p>") None (Some no_image) None.

End Sample.

(** ** Strings by code unit: [trim] and [split] *)

(** [buildBrowserLaunchArgs] looks inside its string, so the string is taken
    as JavaScript has it, a sequence of UTF-16 code units. *)
Module JSString.

(** ECMAScript [WhiteSpace] and [LineTerminator], which is what [trim]
    strips. *)
Definition is_white_space (c : N) : bool :=
  ((c =? 9) || (c =? 10) || (c =? 11) || (c =? 12) || (c =? 13) || (c =? 32) ||
   (c =? 160) || (c =? 5760) || ((8192 <=? c) && (c <=? 8202)) ||
   (c =? 8232) || (c =? 8233) || (c =? 8239) || (c =? 8287) || (c =? 12288) ||
   (c =? 65279))%N.

Fixpoint trim_start (s : list N) : list N :=
  match s with
  | [] => []
  | c :: rest => if is_white_space c then trim_start rest else s
  end.

Definition trim_end (s : list N) : list N := rev (trim_start (rev s)).

(** [s.trim()] *)
Definition trim (s : list N) : list N := trim_end (trim_start s).

(** [s.split(sep)] for a separator of one code unit. *)
Fixpoint split (sep : N) (s : list N) : list (list N) :=
  match s with
  | [] => [[]]
  | c :: rest =>
      if (c =? sep)%N then [] :: split sep rest
      else
        match split sep rest with
        | part :: parts => (c :: part) :: parts
        | [] => [[c]]
        end
  end.

(** [parts.join(sep)], the reading of [split] backwards. *)
Fixpoint join (sep : N) (parts : list (list N)) : list N :=
  match parts with
  | [] => []
  | [part] => part
  | part :: rest => part ++ sep :: join sep rest
  end.

Definition comma : N := 44%N.

(** The code units of a string of ASCII characters. *)
Definition of_ascii (s : string) : list N :=
  map N_of_ascii (list_ascii_of_string s).

End JSString.

(** [buildBrowserLaunchArgs]; [BROWSER_LAUNCH_ARGS] comes from [config.ts]. *)
Definition buildBrowserLaunchArgs (BROWSER_LAUNCH_ARGS : list N) : list (list N) :=
  JSString.split JSString.comma (JSString.trim BROWSER_LAUNCH_ARGS).

(** ** The start of the server: [app] *)

(** Configuration values.  Numbers are the integers a configuration holds. *)
Inductive Value : Type :=
| VUndefined
| VNull
| VBoolean (b : bool)
| VNumber (n : Z)
| VString (s : string)
| VObject (fields : list (string * Value)).

(** [if (v)] *)
Definition to_boolean (v : Value) : bool :=
  match v with
  | VUndefined | VNull => false
  | VBoolean b => b
  | VNumber n => negb (n =? 0)%Z
  | VString s => negb (String.eqb s "")
  | VObject _ => true
  end.

(** The constants that [app.ts] imports from [config.ts]. *)
Record Constants : Type := mkConstants {
  ACCEPT_LANGUAGE : Value;
  BEARER_AUTH_SECRET_KEY : Value;
  BROWSER_LAUNCH_ARGS : list N;
  DEFAULT_PRESET_PDF_OPTIONS_NAME : Value;
  DEFAULT_VIEWPORT : Value;
  EMULATE_MEDIA_TYPE_SCREEN_ENABLED : Value;
  FASTIFY_BODY_LIMIT : Value;
  FASTIFY_LOG_LEVEL : Value;
  PAGE_TIMEOUT_MILLISECONDS : Value;
  PAGES_NUM : Value;
  PRESET_PDF_OPTIONS_FILE_PATH : Value;
  USER_AGENT : Value;
}.

(** [defaultAppConfig] *)
Definition defaultAppConfig (c : Constants) : gmap string Value :=
  list_to_map
    [ ("presetPdfOptionsFilePath", PRESET_PDF_OPTIONS_FILE_PATH c);
      ("defaultPresetPdfOptionsName", DEFAULT_PRESET_PDF_OPTIONS_NAME c);
      ("bearerAuthSecretKey", BEARER_AUTH_SECRET_KEY c);
      ("pagesNum", PAGES_NUM c);
      ("userAgent", USER_AGENT c);
      ("pageTimeoutMilliseconds", PAGE_TIMEOUT_MILLISECONDS c);
      ("emulateMediaTypeScreenEnabled", EMULATE_MEDIA_TYPE_SCREEN_ENABLED c);
      ("acceptLanguage", ACCEPT_LANGUAGE c);
      ("fastifyLogLevel", FASTIFY_LOG_LEVEL c);
      ("fastifyBodyLimit", FASTIFY_BODY_LIMIT c);
      ("viewport", DEFAULT_VIEWPORT c) ].

(** [{ ...a, ...b }]: the keys of [b] win, also when their value is
    [undefined]. *)
Definition spread (a b : gmap string Value) : gmap string Value := b ∪ a.

(** [const { k } = o] *)
Definition field (o : gmap string Value) (k : string) : Value :=
  default VUndefined (o !! k).

(** What [app] does to the fastify instance it returns, in order. *)
Inductive Registration : Type :=
| Plugin_hcPDFOptions (filePath : Value)
| Plugin_formBody
| Plugin_hcPages (pagesNum : Value) (pageOptions : list (string * Value))
    (launchArgs : list (list N))
| Plugin_bearerAuth (keys : list Value)
| Route (method path : string).

Record Server : Type := mkServer {
  logger_level : Value;
  bodyLimit : Value;
  registrations : list Registration;
}.

(** [app] *)
Definition app (c : Constants) (appConfig : gmap string Value) : Server :=
  let config := spread (defaultAppConfig c) appConfig in
  let presetPdfOptionsFilePath := field config "presetPdfOptionsFilePath" in
  let bearerAuthSecretKey := field config "bearerAuthSecretKey" in
  let pagesNum := field config "pagesNum" in
  let userAgent := field config "userAgent" in
  let pageTimeoutMilliseconds := field config "pageTimeoutMilliseconds" in
  let emulateMediaTypeScreenEnabled := field config "emulateMediaTypeScreenEnabled" in
  let acceptLanguage := field config "acceptLanguage" in
  let fastifyLogLevel := field config "fastifyLogLevel" in
  let fastifyBodyLimit := field config "fastifyBodyLimit" in
  let viewport := field config "viewport" in
  let pageOptions :=
    [ ("userAgent", userAgent);
      ("pageTimeoutMilliseconds", pageTimeoutMilliseconds);
      ("emulateMediaTypeScreenEnabled", emulateMediaTypeScreenEnabled);
      ("acceptLanguage", acceptLanguage);
      ("viewport", viewport) ] in
  let launchOptions := buildBrowserLaunchArgs (BROWSER_LAUNCH_ARGS c) in
  mkServer fastifyLogLevel fastifyBodyLimit
    ([ Plugin_hcPDFOptions presetPdfOptionsFilePath;
       Plugin_formBody;
       Plugin_hcPages pagesNum pageOptions launchOptions ] ++
     (if to_boolean bearerAuthSecretKey
      then [Plugin_bearerAuth [bearerAuthSecretKey]]
      else []) ++
     [ Route "GET" "/"; Route "POST" "/"; Route "GET" "/pdf_options" ]).

(** ** Further vocabulary *)

(** The replies of the two [catch] blocks. *)
Definition get_error_reply (error : Error) (url : string) : Reply :=
  reply_send (SendJson (JObject [("error", JError error); ("url", JString url)]))
    (reply_code 500 new_reply).

Definition post_error_reply (error : Error) : Reply :=
  reply_send (SendJson (JObject [("error", JError error)])) (reply_code 500 new_reply).

(** What the inlining of a fragment returns and which calls it makes; neither
    depends on the state. *)
Definition inline_result (env : Env) (fragment : string) : Error + string :=
  match image_url env fragment with
  | None => inr (html_of env (dom_of env fragment))
  | Some url =>
      match http_get env url with
      | inr data =>
          inr (html_of env
                 (Cheerio.img_attr_set "src" (data_uri data) (dom_of env fragment)))
      | inl e => inl e
      end
  end.

Definition inline_calls (env : Env) (fragment : string) : list Event :=
  match image_url env fragment with
  | None => []
  | Some url => [EvAxiosGet url]
  end.

(** The calls of one [if (header) { ... }] block of the GET handler. *)
Definition fragment_calls (env : Env) (fragment : option string) : list Event :=
  match truthy fragment with
  | Some f => inline_calls env f
  | None => []
  end.

(** The fields of the options object after one block of the GET handler that
    started from the fields [o], or the error of the inlining. *)
Definition after_fragment (env : Env) (fragment : option string)
    (set_template : string -> PDFOptions -> PDFOptions) (o : PDFOptions)
  : Error + PDFOptions :=
  match truthy fragment with
  | Some f =>
      match inline_result env f with
      | inr template => inr (set_template template (Puppeteer.set_displayHeaderFooter true o))
      | inl e => inl e
      end
  | None => inr o
  end.


Definition in_base64_alphabet (c : ascii) : Prop :=
  c = Base64.pad \/ In c (list_ascii_of_string Base64.alphabet).

(** ** More of the small world *)

Module Scenario.

Definition constants : Constants :=
  mkConstants (VString "ja") (VString "secret")
    (JSString.of_ascii " --no-sandbox,--disable-gpu ")
    (VString "DEFAULT") (VObject [("width", VNumber 1280); ("height", VNumber 768)])
    (VBoolean false) (VNumber 10485760) (VString "info") (VNumber 30000)
    (VNumber 3) (VString "./presets/default") (VString "").

Definition down_url : string := "http://down.test/".

Definition image_unreachable : string := "<img src='http://cdn.test/seal.png'>".

(** Like [Sample.load], with one more fragment. *)
Definition load (fragment : string) : Cheerio.Dom :=
  if String.eqb fragment image_unreachable then
    [Cheerio.Element "img" [("src", Sample.seal_url); ("alt", "seal")] []]
  else Sample.load fragment.

(** Like [Sample.env], except that the preset "missing" is unknown to
    [getPDFOptions] and the preset "ghost" resolves to [undefined]. *)
Definition env : Env :=
  mkEnv load Sample.html Sample.get Sample.goto
    (fun html => if String.eqb html "<crash>" then inl (JsError "Target closed")
                 else inr tt)
    (fun content _ =>
       match content with
       | Puppeteer.FromUrl "http://heavy.test/" => inl (JsError "TimeoutError")
       | _ => inr Sample.pdf_bytes
       end)
    (fun name =>
       if String.eqb name "missing" then inl (JsError "unknown preset")
       else if String.eqb name "ghost" then inr 99
       else resolve Sample.registry (Some name)).

Definition a4 : PDFOptions :=
  Puppeteer.mkPDFOptions (Some "a4") None (Some (defaultMargin "10mm"))
    (Some true) None None None.

Definition default_preset : PDFOptions :=
  Puppeteer.mkPDFOptions (Some "a4") (Some false) (Some (defaultMargin "10mm"))
    (Some true) None None None.

End Scenario.

(** A world in which [getPDFOptions] hands out copies: the stored records are
    at the addresses 0 to 8, as in [Sample], and the copy of the record
    stored at [l] is at [100 + l]. *)
Module Copying.

Definition start : State :=
  mkState (snd (load_presets (PresetPDFOptions "a4" false "10mm") 100
                  (∅, snd Sample.presets))) [].

Definition env : Env :=
  mkEnv Sample.load Sample.html Sample.get Sample.goto (fun _ => inr tt)
    (fun _ _ => inr Sample.pdf_bytes)
    (fun name =>
       match resolve Sample.registry (Some name) with
       | inr stored => inr (100 + stored)
       | inl e => inl e
       end).

End Copying.

(** ** Proof steps *)

(** Arithmetic on the 24-bit groups of the base64 codec. *)
Ltac b64_arith :=
  unfold Base64.ungroup, Base64.sextet, Base64.group3, Base64.x00;
  repeat match goal with
         | x : byte |- _ =>
             lazymatch goal with
             | H : (Byte.to_N x <= 255)%N |- _ => fail
             | _ => pose proof (Byte.to_N_bounded x)
             end
         end;
  change (Byte.to_N "000"%byte) with 0%N;
  change (64 ^ (3 - 0))%N with 262144%N;
  change (64 ^ (3 - 1))%N with 4096%N;
  change (64 ^ (3 - 2))%N with 64%N;
  change (64 ^ (3 - 3))%N with 1%N;
  change (256 ^ (2 - 0))%N with 65536%N;
  change (256 ^ (2 - 1))%N with 256%N;
  change (256 ^ (2 - 2))%N with 1%N;
  zify; Z.to_euclidean_division_equations; lia.

(** Rewrite with the first half of a proved conjunction [a = b /\ _]. *)
Ltac rewrite_left H :=
  let H' := fresh in
  pose proof H as H'; destruct H' as [-> ?].

(** * Properties *)

(** ** Base64 *)

Lemma sextet_char_roundtrip (n : N) :
  (n < 64)%N ->
  Base64.decode_char (Base64.encode_sextet n) = Some n /\
  Ascii.eqb (Base64.encode_sextet n) Base64.pad = false.
Proof.
  intros Hn.
  rewrite <- (N2Nat.id n).
  assert (Hk : N.to_nat n < 64) by lia.
  clear Hn. revert Hk. generalize (N.to_nat n) as k. clear n. intros k Hk.
  do 64 (destruct k as [|k]; [split; reflexivity|]).
  lia.
Qed.

Lemma sextet_lt (k n : N) : (Base64.sextet k n < 64)%N.
Proof. unfold Base64.sextet. apply N.mod_lt. discriminate. Qed.

Lemma octet_of_to_N (k n : N) (x : byte) :
  ((n / 256 ^ (2 - k)) mod 256)%N = Byte.to_N x -> Base64.octet k n = Some x.
Proof. intros H. unfold Base64.octet. rewrite H. apply Byte.of_to_N. Qed.

Lemma decode_group3 (a b c : byte) :
  let n := Base64.group3 a b c in
  let m := Base64.ungroup (Base64.sextet 0 n) (Base64.sextet 1 n)
             (Base64.sextet 2 n) (Base64.sextet 3 n) in
  Base64.octet 0 m = Some a /\ Base64.octet 1 m = Some b /\ Base64.octet 2 m = Some c.
Proof. cbv zeta. repeat split; apply octet_of_to_N; b64_arith. Qed.

Lemma decode_group2 (a b : byte) :
  let n := Base64.group3 a b Base64.x00 in
  let m := Base64.ungroup (Base64.sextet 0 n) (Base64.sextet 1 n)
             (Base64.sextet 2 n) 0 in
  Base64.octet 0 m = Some a /\ Base64.octet 1 m = Some b.
Proof. cbv zeta. repeat split; apply octet_of_to_N; b64_arith. Qed.

Lemma decode_group1 (a : byte) :
  let n := Base64.group3 a Base64.x00 Base64.x00 in
  let m := Base64.ungroup (Base64.sextet 0 n) (Base64.sextet 1 n) 0 0 in
  Base64.octet 0 m = Some a.
Proof. cbv zeta. apply octet_of_to_N; b64_arith. Qed.

Lemma list_ind3 {A : Type} (P : list A -> Prop) :
  P [] -> (forall a, P [a]) -> (forall a b, P [a; b]) ->
  (forall a b c l, P l -> P (a :: b :: c :: l)) ->
  forall l, P l.
Proof.
  intros H0 H1 H2 H3.
  fix IH 1. intros [|a [|b [|c l]]]; [apply H0 | apply H1 | apply H2 | apply H3, IH].
Qed.

(** Decoding what [Buffer.toString('base64')] produced gives the bytes back. *)
Lemma base64_roundtrip (bs : list byte) :
  Base64.decode (Base64.encode bs) = Some bs.
Proof.
  induction bs as [|a|a b|a b c l IH] using list_ind3.
  - reflexivity.
  - cbn [Base64.encode Base64.decode].
    rewrite_left (sextet_char_roundtrip _ (sextet_lt 0 (Base64.group3 a Base64.x00 Base64.x00))).
    rewrite_left (sextet_char_roundtrip _ (sextet_lt 1 (Base64.group3 a Base64.x00 Base64.x00))).
    cbn. rewrite decode_group1. reflexivity.
  - cbn [Base64.encode Base64.decode].
    pose proof (sextet_char_roundtrip _ (sextet_lt 2 (Base64.group3 a b Base64.x00))) as [E2 N2].
    rewrite_left (sextet_char_roundtrip _ (sextet_lt 0 (Base64.group3 a b Base64.x00))).
    rewrite_left (sextet_char_roundtrip _ (sextet_lt 1 (Base64.group3 a b Base64.x00))).
    rewrite E2, N2.
    pose proof (decode_group2 a b) as [Ha Hb]. cbn in Ha, Hb |- *.
    rewrite Ha. cbn. rewrite Hb. reflexivity.
  - cbn [Base64.encode Base64.decode].
    pose proof (sextet_char_roundtrip _ (sextet_lt 2 (Base64.group3 a b c))) as [E2 N2].
    pose proof (sextet_char_roundtrip _ (sextet_lt 3 (Base64.group3 a b c))) as [E3 N3].
    rewrite_left (sextet_char_roundtrip _ (sextet_lt 0 (Base64.group3 a b c))).
    rewrite_left (sextet_char_roundtrip _ (sextet_lt 1 (Base64.group3 a b c))).
    rewrite E2, N2, E3, N3.
    pose proof (decode_group3 a b c) as (Ha & Hb & Hc). cbn in Ha, Hb, Hc |- *.
    rewrite Ha. cbn. rewrite Hb. cbn. rewrite Hc. cbn. rewrite IH. reflexivity.
Qed.

(** ** Cheerio *)

Lemma Node_forall_ind (P : Cheerio.Node -> Prop) :
  (forall name attribs children,
      Forall P children -> P (Cheerio.Element name attribs children)) ->
  (forall data, P (Cheerio.Text data)) ->
  forall n, P n.
Proof.
  intros HE HT. fix IH 1. intros [name attribs children|data]; [|apply HT].
  apply HE. revert children. fix IHc 1. intros [|c cs]; constructor.
  - apply IH.
  - apply IHc.
Qed.

Lemma select_img_node_element name attribs children :
  Cheerio.select_img_node (Cheerio.Element name attribs children) =
  (if String.eqb name "img" then [attribs] else []) ++ Cheerio.select_img children.
Proof. reflexivity. Qed.

Lemma img_attr_set_node_element n v name attribs children :
  Cheerio.img_attr_set_node n v (Cheerio.Element name attribs children) =
  Cheerio.Element name
    (if String.eqb name "img" then Cheerio.setAttr n v attribs else attribs)
    (Cheerio.img_attr_set n v children).
Proof. reflexivity. Qed.

Lemma getAttr_setAttr n v attribs :
  Cheerio.getAttr n (Cheerio.setAttr n v attribs) = Some v.
Proof.
  induction attribs as [|[k w] rest IH]; cbn.
  - rewrite String.eqb_refl. reflexivity.
  - destruct (String.eqb k n) eqn:E; cbn; rewrite E; [reflexivity | exact IH].
Qed.

(** Setting an attribute on the selection changes the attributes of the
    selected elements and nothing else about the selection. *)
Lemma select_img_attr_set n v (d : Cheerio.Dom) :
  Cheerio.select_img (Cheerio.img_attr_set n v d) =
  map (Cheerio.setAttr n v) (Cheerio.select_img d).
Proof.
  assert (Hnode : forall m,
             Cheerio.select_img_node (Cheerio.img_attr_set_node n v m) =
             map (Cheerio.setAttr n v) (Cheerio.select_img_node m)).
  { induction m as [name attribs children IH|data] using Node_forall_ind; [|reflexivity].
    rewrite img_attr_set_node_element, !select_img_node_element, map_app.
    f_equal.
    - destruct (String.eqb name "img"); reflexivity.
    - unfold Cheerio.select_img, Cheerio.img_attr_set.
      induction IH as [|c cs Hc _ IHcs]; [reflexivity|].
      cbn [map flat_map]. rewrite map_app, Hc, IHcs. reflexivity. }
  unfold Cheerio.select_img, Cheerio.img_attr_set.
  induction d as [|m ms IH]; [reflexivity|].
  cbn [map flat_map]. rewrite map_app, Hnode, IH. reflexivity.
Qed.

(** ** How the calls of the handlers run *)

Lemma log_nil st : log [] st = st.
Proof. destruct st. unfold log. cbn. rewrite app_nil_r. reflexivity. Qed.

Lemma log_log a b st : log b (log a st) = log (a ++ b) st.
Proof. unfold log. cbn. rewrite app_assoc. reflexivity. Qed.

Section Runs.

Variable env : Env.

Lemma page_goto_run url st :
  page_goto env url st = (navigate env url, log [EvGoto url] st).
Proof. reflexivity. Qed.

Lemma page_setContent_run html st :
  page_setContent env html st = (set_content env html, log [EvSetContent html] st).
Proof. reflexivity. Qed.

Lemma getPDFOptions_run name st :
  getPDFOptions env name st = (preset_of env name, log [EvGetPDFOptions name] st).
Proof. reflexivity. Qed.

Lemma page_pdf_run content l st :
  page_pdf env content l st =
  let o := default Puppeteer.empty (heap st !! l) in
  (render env content o, log [EvPdf content o] st).
Proof. reflexivity. Qed.

Lemma getImageBase64_run url st :
  getImageBase64 env url st =
  (match http_get env url with
   | inr data => inr (Base64.encode data)
   | inl e => inl e
   end, log [EvAxiosGet url] st).
Proof.
  unfold getImageBase64, try_catch, bind, emit, lift, ret, throw, log.
  destruct (http_get env url); reflexivity.
Qed.

Lemma inline_images_run fragment st :
  inline_images env fragment st =
  match image_url env fragment with
  | None => (inr (html_of env (dom_of env fragment)), st)
  | Some url =>
      (match http_get env url with
       | inr data =>
           inr (html_of env
                  (Cheerio.img_attr_set "src" (data_uri data) (dom_of env fragment)))
       | inl e => inl e
       end, log [EvAxiosGet url] st)
  end.
Proof.
  unfold inline_images, image_url.
  destruct (0 <? length (Cheerio.select_img (dom_of env fragment))); [|reflexivity].
  destruct (Cheerio.attr "src" (Cheerio.select_img (dom_of env fragment)));
    [|reflexivity].
  unfold bind at 1. unfold bind at 1. rewrite getImageBase64_run.
  destruct (http_get env s); reflexivity.
Qed.

Lemma assign_run l f o st :
  heap st !! l = Some o -> assign l f st = (inr tt, store l (f o) st).
Proof. intros H. unfold assign. rewrite H. reflexivity. Qed.

Lemma assign_undefined l f st :
  heap st !! l = None ->
  assign l f st = (inl (JsError "TypeError: Cannot set properties of undefined"), st).
Proof. intros H. unfold assign. rewrite H. reflexivity. Qed.

Lemma store_store l o o' st : store l o' (store l o st) = store l o' st.
Proof. unfold store. cbn. rewrite insert_insert_eq. reflexivity. Qed.

Lemma store_log l o ev st : store l o (log ev st) = log ev (store l o st).
Proof. reflexivity. Qed.

Lemma heap_store l o st : heap (store l o st) !! l = Some o.
Proof. unfold store. cbn. apply lookup_insert_eq. Qed.

(** One [if (header) { ... }] block of the GET handler on an object that
    exists. *)
Lemma apply_fragment_run l fragment f set_template o st :
  truthy fragment = Some f ->
  heap st !! l = Some o ->
  apply_fragment env l fragment set_template st =
  let o1 := Puppeteer.set_displayHeaderFooter true o in
  match image_url env f with
  | None => (inr tt, store l (set_template (html_of env (dom_of env f)) o1) st)
  | Some url =>
      match http_get env url with
      | inr data =>
          (inr tt,
           log [EvAxiosGet url]
             (store l (set_template
                         (html_of env (Cheerio.img_attr_set "src" (data_uri data)
                                         (dom_of env f))) o1) st))
      | inl e => (inl e, log [EvAxiosGet url] (store l o1 st))
      end
  end.
Proof.
  intros Hf Hl. unfold apply_fragment. rewrite Hf.
  unfold bind at 1. rewrite (assign_run _ _ _ _ Hl).
  unfold bind at 1. rewrite inline_images_run.
  destruct (image_url env f) as [url|].
  - destruct (http_get env url); [reflexivity|].
    rewrite (assign_run _ _ (Puppeteer.set_displayHeaderFooter true o)).
    + cbv zeta. rewrite store_log, store_store. reflexivity.
    + apply heap_store.
  - rewrite (assign_run _ _ (Puppeteer.set_displayHeaderFooter true o)).
    + cbv zeta. rewrite store_store. reflexivity.
    + apply heap_store.
Qed.

Lemma apply_fragment_skip l fragment set_template st :
  truthy fragment = None ->
  apply_fragment env l fragment set_template st = (inr tt, st).
Proof. intros Hf. unfold apply_fragment. rewrite Hf. reflexivity. Qed.

Lemma apply_fragment_undefined l fragment f set_template st :
  truthy fragment = Some f ->
  heap st !! l = None ->
  apply_fragment env l fragment set_template st =
  (inl (JsError "TypeError: Cannot set properties of undefined"), st).
Proof.
  intros Hf Hl. unfold apply_fragment. rewrite Hf.
  unfold bind at 1. rewrite (assign_undefined _ _ _ Hl). reflexivity.
Qed.

Lemma apply_literal_run l fragment f set_template o st :
  truthy fragment = Some f ->
  heap st !! l = Some o ->
  apply_literal l fragment set_template st =
  (inr tt, store l (set_template f (Puppeteer.set_displayHeaderFooter true o)) st).
Proof.
  intros Hf Hl. unfold apply_literal. rewrite Hf.
  unfold bind at 1. rewrite (assign_run _ _ _ _ Hl).
  rewrite (assign_run _ _ (Puppeteer.set_displayHeaderFooter true o)).
  - rewrite store_store. reflexivity.
  - apply heap_store.
Qed.

Lemma apply_literal_skip l fragment set_template st :
  truthy fragment = None ->
  apply_literal l fragment set_template st = (inr tt, st).
Proof. intros Hf. unfold apply_literal. rewrite Hf. reflexivity. Qed.

Lemma apply_literal_undefined l fragment f set_template st :
  truthy fragment = Some f ->
  heap st !! l = None ->
  apply_literal l fragment set_template st =
  (inl (JsError "TypeError: Cannot set properties of undefined"), st).
Proof.
  intros Hf Hl. unfold apply_literal. rewrite Hf.
  unfold bind at 1. rewrite (assign_undefined _ _ _ Hl). reflexivity.
Qed.

End Runs.

(** ** What a run may change *)

Lemma same_layout_refl o : same_layout o o.
Proof. repeat split. Qed.

Lemma same_layout_trans o1 o2 o3 :
  same_layout o1 o2 -> same_layout o2 o3 -> same_layout o1 o3.
Proof.
  intros (?&?&?&?) (?&?&?&?). repeat split; etransitivity; eassumption.
Qed.

Lemma same_layout_display v o : same_layout o (Puppeteer.set_displayHeaderFooter v o).
Proof. repeat split. Qed.

Lemma same_layout_header v o : same_layout o (Puppeteer.set_headerTemplate v o).
Proof. repeat split. Qed.

Lemma same_layout_footer v o : same_layout o (Puppeteer.set_footerTemplate v o).
Proof. repeat split. Qed.

Lemma heap_frame_refl l (h : gmap nat PDFOptions) : heap_frame l h h.
Proof.
  split; [reflexivity|]. unfold layout_kept.
  destruct (h !! l); [apply same_layout_refl | exact I].
Qed.


Lemma heap_frame_store l o o' st :
  heap st !! l = Some o -> same_layout o o' ->
  heap_frame l (heap st) (heap (store l o' st)).
Proof.
  intros Hl Hlay. split.
  - intros l' Hne. unfold store. cbn. apply lookup_insert_ne. congruence.
  - unfold layout_kept. rewrite Hl, heap_store. exact Hlay.
Qed.

Lemma heap_frame_eq l (h h' : gmap nat PDFOptions) :
  h' = h -> heap_frame l h h'.
Proof. intros ->. apply heap_frame_refl. Qed.

Section Effects.

Variable env : Env.

(** One block of the GET handler writes to the object it was given and to
    nothing else, and fetches at most one image. *)
Lemma apply_fragment_effect l fragment set_template st :
  (forall v o, same_layout o (set_template v o)) ->
  exists fetches,
    trace (snd (apply_fragment env l fragment set_template st)) = trace st ++ fetches /\
    heap_frame l (heap st) (heap (snd (apply_fragment env l fragment set_template st))) /\
    Forall (fun ev => exists u, ev = EvAxiosGet u) fetches /\
    length fetches <= 1 /\
    (truthy fragment = None ->
     snd (apply_fragment env l fragment set_template st) = st).
Proof.
  intros Hset.
  destruct (truthy fragment) as [f|] eqn:Hf.
  - destruct (heap st !! l) as [o|] eqn:Hl.
    + rewrite (apply_fragment_run env l fragment f set_template o st Hf Hl). cbv zeta.
      destruct (image_url env f) as [url|]; [destruct (http_get env url)|]; cbn [snd].
      * exists [EvAxiosGet url]. split; [reflexivity|]. split; [|split; [|split]].
        -- apply (heap_frame_store l o); [exact Hl | apply same_layout_display].
        -- repeat constructor. eexists; reflexivity.
        -- cbn. lia.
        -- discriminate.
      * exists [EvAxiosGet url]. split; [reflexivity|]. split; [|split; [|split]].
        -- apply (heap_frame_store l o); [exact Hl|].
           eapply same_layout_trans; [apply same_layout_display | apply Hset].
        -- repeat constructor. eexists; reflexivity.
        -- cbn. lia.
        -- discriminate.
      * exists []. split; [|split; [|split; [|split]]].
        -- cbn. rewrite app_nil_r. reflexivity.
        -- apply (heap_frame_store l o); [exact Hl|].
           eapply same_layout_trans; [apply same_layout_display | apply Hset].
        -- constructor.
        -- cbn. lia.
        -- discriminate.
    + rewrite (apply_fragment_undefined env l fragment f set_template st Hf Hl). cbn [snd].
      exists []. split; [|split; [|split; [|split]]].
      * rewrite app_nil_r. reflexivity.
      * apply heap_frame_refl.
      * constructor.
      * cbn. lia.
      * reflexivity.
  - rewrite (apply_fragment_skip env l fragment set_template st Hf). cbn [snd].
    exists []. split; [|split; [|split; [|split]]].
    + rewrite app_nil_r. reflexivity.
    + apply heap_frame_refl.
    + constructor.
    + cbn. lia.
    + reflexivity.
Qed.


End Effects.

(** ** The two handlers *)

Section HandlerRuns.

Variable env : Env.
Variable dflt : string.

(** The GET handler on a request with a URL: the job runs once the page pool
    has been called, and its outcome decides the reply. *)
Lemma get_handler_run query url st :
  truthy (q_url query) = Some url ->
  get_handler env dflt query st =
  (inr match fst (get_job env url (nullish (q_pdf_option query) dflt) query
                    (log [EvRunOnPage] st)) with
       | inr buffer => pdf_reply buffer
       | inl error =>
           reply_send
             (SendJson (JObject [("error", JError error); ("url", JString url)]))
             (reply_code 500 new_reply)
       end,
   snd (get_job env url (nullish (q_pdf_option query) dflt) query
          (log [EvRunOnPage] st))).
Proof.
  intros Hurl. unfold get_handler. rewrite Hurl.
  unfold try_catch, runOnPage. unfold bind at 1. unfold bind at 1.
  unfold emit. cbv beta iota.
  destruct (get_job env url (nullish (q_pdf_option query) dflt) query
              (log [EvRunOnPage] st)) as [[e|buffer] st']; reflexivity.
Qed.

Lemma store_same l o st : heap st !! l = Some o -> store l o st = st.
Proof.
  intros H. destruct st as [h tr]. unfold store. cbn in *.
  rewrite (insert_id h l o H). reflexivity.
Qed.

Lemma apply_literal_overlay l fragment set_template o st :
  heap st !! l = Some o ->
  apply_literal l fragment set_template st =
  (inr tt, store l (overlay fragment set_template o) st).
Proof.
  intros Hl. unfold overlay. destruct (truthy fragment) as [f|] eqn:Hf.
  - apply apply_literal_run; assumption.
  - rewrite apply_literal_skip, store_same; auto.
Qed.

Lemma post_job_run html l st :
  post_job env html l st =
  match set_content env html with
  | inr _ =>
      let o := default Puppeteer.empty (heap st !! l) in
      (render env (Puppeteer.FromHtml html) o,
       log [EvSetContent html; EvPdf (Puppeteer.FromHtml html) o] st)
  | inl e => (inl e, log [EvSetContent html] st)
  end.
Proof.
  unfold post_job. unfold bind at 1. rewrite page_setContent_run.
  destruct (set_content env html) as [e|[]]; [reflexivity|].
  rewrite page_pdf_run. cbv zeta. rewrite log_log. reflexivity.
Qed.

(** The POST handler on a request with HTML, when the preset is resolved to
    an object that exists. *)
Lemma post_handler_run body html l o st :
  truthy (Some (nullish (b_html body) "")) = Some html ->
  preset_of env (nullish (b_pdf_option body) dflt) = inr l ->
  heap st !! l = Some o ->
  post_handler env dflt (Some body) st =
  let o' := overlay (b_footer body) Puppeteer.set_footerTemplate
              (overlay (b_header body) Puppeteer.set_headerTemplate o) in
  let st1 := store l o' (log [EvGetPDFOptions (nullish (b_pdf_option body) dflt);
                              EvRunOnPage; EvSetContent html] st) in
  match set_content env html with
  | inr _ =>
      (inr match render env (Puppeteer.FromHtml html) o' with
           | inr buffer => pdf_reply buffer
           | inl error =>
               reply_send (SendJson (JObject [("error", JError error)]))
                 (reply_code 500 new_reply)
           end,
       log [EvPdf (Puppeteer.FromHtml html) o'] st1)
  | inl error =>
      (inr (reply_send (SendJson (JObject [("error", JError error)]))
              (reply_code 500 new_reply)),
       st1)
  end.
Proof.
  intros Hhtml Hl Ho. unfold post_handler. rewrite Hhtml.
  unfold bind at 1. rewrite getPDFOptions_run, Hl.
  unfold bind at 1.
  rewrite (apply_literal_overlay l _ _ o) by exact Ho.
  unfold bind at 1.
  rewrite (apply_literal_overlay l _ _
             (overlay (b_header body) Puppeteer.set_headerTemplate o))
    by apply heap_store.
  rewrite store_store.
  unfold try_catch, runOnPage. unfold bind at 1. unfold bind at 1.
  unfold emit. cbv beta iota. rewrite post_job_run.
  cbn [log store heap trace]. rewrite lookup_insert_eq.
  change (default Puppeteer.empty (Some ?x)) with x.
  destruct (set_content env html) as [e|[]].
  - cbv zeta. unfold store, log. cbn [heap trace].
    rewrite <- !app_assoc. reflexivity.
  - cbv zeta.
    destruct (render env (Puppeteer.FromHtml html)
                (overlay (b_footer body) Puppeteer.set_footerTemplate
                   (overlay (b_header body) Puppeteer.set_headerTemplate o)));
      unfold store, log; cbn [heap trace fst snd]; rewrite <- !app_assoc; reflexivity.
Qed.

Lemma apply_literal_effect l fragment set_template st :
  (forall v o, same_layout o (set_template v o)) ->
  trace (snd (apply_literal l fragment set_template st)) = trace st /\
  heap_frame l (heap st) (heap (snd (apply_literal l fragment set_template st))) /\
  (truthy fragment = None -> snd (apply_literal l fragment set_template st) = st).
Proof.
  intros Hset. destruct (truthy fragment) as [f|] eqn:Hf.
  - destruct (heap st !! l) as [o|] eqn:Hl.
    + rewrite (apply_literal_run l fragment f set_template o st Hf Hl). cbn [snd].
      split; [reflexivity|]. split; [|discriminate].
      apply (heap_frame_store l o); [exact Hl|].
      eapply same_layout_trans; [apply same_layout_display | apply Hset].
    + rewrite (apply_literal_undefined l fragment f set_template st Hf Hl). cbn [snd].
      split; [reflexivity|]. split; [apply heap_frame_refl | reflexivity].
  - rewrite (apply_literal_skip l fragment set_template st Hf). cbn [snd].
    split; [reflexivity|]. split; [apply heap_frame_refl | reflexivity].
Qed.


End HandlerRuns.

(** ** Inlining of the images of a fragment *)

(** At least one selected element means the URL fetched is the [src] of the
    first one. *)
Lemma image_url_first env fragment first others :
  Cheerio.select_img (dom_of env fragment) = first :: others ->
  image_url env fragment = Cheerio.getAttr "src" first.
Proof. intros H. unfold image_url. rewrite H. reflexivity. Qed.

Lemma image_url_none env fragment :
  Cheerio.select_img (dom_of env fragment) = [] -> image_url env fragment = None.
Proof. intros H. unfold image_url. rewrite H. reflexivity. Qed.

(** C3: a fragment with exactly one image element, whose source URL serves
    the bytes [B], is inlined to the HTML of the document in which that
    element's [src] is [data:image/png;base64,<payload>], and decoding the
    payload as base64 gives exactly [B]. *)
Theorem C3_single_image_inlined env fragment attribs url B st :
  Cheerio.select_img (dom_of env fragment) = [attribs] ->
  Cheerio.getAttr "src" attribs = Some url ->
  http_get env url = inr B ->
  exists payload dom',
    fst (inline_images env fragment st) = inr (html_of env dom') /\
    dom' = Cheerio.img_attr_set "src" ("data:image/png;base64," +:+ payload)
             (dom_of env fragment) /\
    (exists attribs',
        Cheerio.select_img dom' = [attribs'] /\
        Cheerio.getAttr "src" attribs' = Some ("data:image/png;base64," +:+ payload)) /\
    Base64.decode payload = Some B.
Proof.
  intros Himg Hsrc Hget.
  exists (Base64.encode B). eexists. split; [|split; [reflexivity|split]].
  - rewrite inline_images_run, (image_url_first _ _ _ _ Himg), Hsrc, Hget. reflexivity.
  - eexists. split.
    + rewrite select_img_attr_set, Himg. reflexivity.
    + apply getAttr_setAttr.
  - apply base64_roundtrip.
Qed.

Lemma C3_witness :
  exists payload dom',
    fst (inline_images Sample.env Sample.one_image Sample.start) =
      inr (html_of Sample.env dom') /\
    dom' = Cheerio.img_attr_set "src" ("data:image/png;base64," +:+ payload)
             (dom_of Sample.env Sample.one_image) /\
    (exists attribs',
        Cheerio.select_img dom' = [attribs'] /\
        Cheerio.getAttr "src" attribs' = Some ("data:image/png;base64," +:+ payload)) /\
    Base64.decode payload = Some Sample.logo_bytes.
Proof.
  apply (C3_single_image_inlined Sample.env Sample.one_image
           [("src", Sample.logo_url)] Sample.logo_url Sample.logo_bytes Sample.start);
    reflexivity.
Defined.

(** C4: a fragment without image elements is inlined without any call to
    the network (the trace and the heap are as before), and the result is the
    parsed fragment serialized back, its document untouched. *)
Theorem C4_no_image_no_fetch env fragment st :
  Cheerio.select_img (dom_of env fragment) = [] ->
  inline_images env fragment st = (inr (html_of env (dom_of env fragment)), st).
Proof.
  intros Himg. rewrite inline_images_run, (image_url_none _ _ Himg). reflexivity.
Qed.

Lemma C4_witness :
  inline_images Sample.env Sample.no_image Sample.start =
  (inr (html_of Sample.env (dom_of Sample.env Sample.no_image)), Sample.start).
Proof.
  apply (C4_no_image_no_fetch Sample.env Sample.no_image Sample.start). reflexivity.
Defined.

Lemma truthy_nonempty s : s <> "" -> truthy (Some s) = Some s.
Proof.
  intros Hs. unfold truthy. destruct (String.eqb_spec s ""); [contradiction | reflexivity].
Qed.

Lemma get_job_run_ok env url name query l st :
  navigate env url = inr tt ->
  preset_of env name = inr l ->
  get_job env url name query st =
  (apply_fragment env l (q_header query) Puppeteer.set_headerTemplate >>
   apply_fragment env l (q_footer query) Puppeteer.set_footerTemplate >>
   page_pdf env (Puppeteer.FromUrl url) l)
    (log [EvGoto url; EvGetPDFOptions name] st).
Proof.
  intros Hnav Hl. unfold get_job.
  unfold bind at 1. rewrite page_goto_run, Hnav.
  unfold bind at 1. rewrite getPDFOptions_run, Hl, log_log. reflexivity.
Qed.

(** The job of a request whose only fragment is [fragment], given as header
    ([set_template] is then [set_headerTemplate]) or as footer. *)
Lemma get_job_one_fragment env url name l o fragment set_template query st :
  navigate env url = inr tt ->
  preset_of env name = inr l ->
  heap st !! l = Some o ->
  fragment <> "" ->
  (q_header query = Some fragment /\ q_footer query = None /\
   set_template = Puppeteer.set_headerTemplate) \/
  (q_header query = None /\ q_footer query = Some fragment /\
   set_template = Puppeteer.set_footerTemplate) ->
  get_job env url name query st =
  let o1 := Puppeteer.set_displayHeaderFooter true o in
  let st0 := log [EvGoto url; EvGetPDFOptions name] st in
  match image_url env fragment with
  | None =>
      let o' := set_template (html_of env (dom_of env fragment)) o1 in
      (render env (Puppeteer.FromUrl url) o',
       log [EvPdf (Puppeteer.FromUrl url) o'] (store l o' st0))
  | Some u =>
      match http_get env u with
      | inr data =>
          let o' := set_template
                      (html_of env (Cheerio.img_attr_set "src" (data_uri data)
                                      (dom_of env fragment))) o1 in
          (render env (Puppeteer.FromUrl url) o',
           log [EvAxiosGet u; EvPdf (Puppeteer.FromUrl url) o'] (store l o' st0))
      | inl e => (inl e, log [EvAxiosGet u] (store l o1 st0))
      end
  end.
Proof.
  intros Hnav Hl Ho Hne Hcase.
  rewrite (get_job_run_ok env url name query l st Hnav Hl).
  pose proof (truthy_nonempty fragment Hne) as Ht.
  assert (Ho' : heap (log [EvGoto url; EvGetPDFOptions name] st) !! l = Some o)
    by exact Ho.
  destruct Hcase as [(Hh & Hf & ->)|(Hh & Hf & ->)]; rewrite Hh, Hf.
  - unfold bind at 1.
    rewrite (apply_fragment_run env l (Some fragment) fragment _ o _ Ht Ho'). cbv zeta.
    destruct (image_url env fragment) as [u|]; [destruct (http_get env u)|].
    + reflexivity.
    + unfold bind at 1. rewrite apply_fragment_skip by reflexivity.
      rewrite page_pdf_run. cbv zeta. cbn [log heap store].
      rewrite lookup_insert_eq. change (default Puppeteer.empty (Some ?x)) with x.
      unfold log. cbn [heap trace]. rewrite <- !app_assoc. reflexivity.
    + unfold bind at 1. rewrite apply_fragment_skip by reflexivity.
      rewrite page_pdf_run. cbv zeta. cbn [log heap store].
      rewrite lookup_insert_eq. change (default Puppeteer.empty (Some ?x)) with x.
      reflexivity.
  - unfold bind at 1. rewrite apply_fragment_skip by reflexivity.
    unfold bind at 1.
    rewrite (apply_fragment_run env l (Some fragment) fragment _ o _ Ht Ho'). cbv zeta.
    destruct (image_url env fragment) as [u|]; [destruct (http_get env u)|].
    + reflexivity.
    + rewrite page_pdf_run. cbv zeta. cbn [log heap store].
      rewrite lookup_insert_eq. change (default Puppeteer.empty (Some ?x)) with x.
      unfold log. cbn [heap trace]. rewrite <- !app_assoc. reflexivity.
    + rewrite page_pdf_run. cbv zeta. cbn [log heap store].
      rewrite lookup_insert_eq. change (default Puppeteer.empty (Some ?x)) with x.
      reflexivity.
Qed.

(** C9: when the fragment has image elements and the first one has a
    [src], inlining makes exactly one fetch, of that [src], and on success
    the data URI built from the fetched bytes becomes the [src] of every
    image element of the fragment, however many there are.  In a by-URL
    request that reaches the inlining step with this fragment as its header
    (or its footer), that fetch is the only one. *)
Theorem C9_one_fetch_for_all_images env fragment first others url st :
  Cheerio.select_img (dom_of env fragment) = first :: others ->
  Cheerio.getAttr "src" first = Some url ->
  snd (inline_images env fragment st) = log [EvAxiosGet url] st /\
  (forall B, http_get env url = inr B ->
     exists dom',
       fst (inline_images env fragment st) = inr (html_of env dom') /\
       length (Cheerio.select_img dom') = S (length others) /\
       Forall (fun attribs => Cheerio.getAttr "src" attribs = Some (data_uri B))
         (Cheerio.select_img dom')) /\
  (forall dflt target pdf_option l o query,
      query = mkGetQuerystring (Some target) pdf_option (Some fragment) None \/
      query = mkGetQuerystring (Some target) pdf_option None (Some fragment) ->
      target <> "" -> fragment <> "" ->
      navigate env target = inr tt ->
      preset_of env (nullish pdf_option dflt) = inr l ->
      heap st !! l = Some o ->
      exists rest,
        trace (snd (get_handler env dflt query st)) =
          trace st ++ [EvRunOnPage; EvGoto target;
                       EvGetPDFOptions (nullish pdf_option dflt); EvAxiosGet url] ++ rest /\
        Forall (fun ev => forall u, ev <> EvAxiosGet u) rest).
Proof.
  intros Himg Hsrc.
  pose proof (image_url_first env fragment first others Himg) as Hurl.
  rewrite Hsrc in Hurl.
  split; [|split].
  - rewrite inline_images_run, Hurl. reflexivity.
  - intros B HB. eexists. split; [|split].
    + rewrite inline_images_run, Hurl, HB. reflexivity.
    + rewrite select_img_attr_set, length_map, Himg. reflexivity.
    + rewrite select_img_attr_set. apply Forall_map, Forall_forall.
      intros attribs _. apply getAttr_setAttr.
  - intros dflt target pdf_option l o query Hq Htarget Hfrag Hnav Hl Ho.
    assert (Hrun : exists set_template,
               get_job env target (nullish pdf_option dflt) query (log [EvRunOnPage] st) =
               match http_get env url with
               | inr data =>
                   let o' := set_template
                               (html_of env (Cheerio.img_attr_set "src" (data_uri data)
                                               (dom_of env fragment)))
                               (Puppeteer.set_displayHeaderFooter true o) in
                   (render env (Puppeteer.FromUrl target) o',
                    log [EvAxiosGet url; EvPdf (Puppeteer.FromUrl target) o']
                      (store l o' (log [EvGoto target;
                                        EvGetPDFOptions (nullish pdf_option dflt)]
                                     (log [EvRunOnPage] st))))
               | inl e =>
                   (inl e,
                    log [EvAxiosGet url]
                      (store l (Puppeteer.set_displayHeaderFooter true o)
                         (log [EvGoto target; EvGetPDFOptions (nullish pdf_option dflt)]
                            (log [EvRunOnPage] st))))
               end).
    { destruct Hq as [->| ->].
      - exists Puppeteer.set_headerTemplate.
        rewrite (get_job_one_fragment env target _ l o fragment
                   Puppeteer.set_headerTemplate _ (log [EvRunOnPage] st) Hnav Hl Ho Hfrag)
          by (left; repeat split).
        cbv zeta. rewrite Hurl. reflexivity.
      - exists Puppeteer.set_footerTemplate.
        rewrite (get_job_one_fragment env target _ l o fragment
                   Puppeteer.set_footerTemplate _ (log [EvRunOnPage] st) Hnav Hl Ho Hfrag)
          by (right; repeat split).
        cbv zeta. rewrite Hurl. reflexivity. }
    destruct Hrun as [set_template Hrun].
    assert (Hq' : q_url query = Some target /\ q_pdf_option query = pdf_option)
      by (destruct Hq as [->| ->]; split; reflexivity).
    destruct Hq' as [Hu Hp].
    rewrite (get_handler_run env dflt query target st)
      by (rewrite Hu; apply truthy_nonempty, Htarget).
    cbn [snd]. rewrite Hp, Hrun.
    destruct (http_get env url) as [e|data]; cbn [snd log store heap trace].
    + exists []. split; [|constructor]. rewrite <- !app_assoc. reflexivity.
    + eexists [_]. split; [rewrite <- !app_assoc; reflexivity|].
      repeat constructor. discriminate.
Qed.

Lemma C9_witness :
  snd (inline_images Sample.env Sample.two_images Sample.start) =
    log [EvAxiosGet Sample.logo_url] Sample.start /\
  (exists dom',
      fst (inline_images Sample.env Sample.two_images Sample.start) =
        inr (html_of Sample.env dom') /\
      length (Cheerio.select_img dom') = 2 /\
      Forall (fun attribs =>
                Cheerio.getAttr "src" attribs = Some (data_uri Sample.logo_bytes))
        (Cheerio.select_img dom')) /\
  (exists rest,
      trace (snd (get_handler Sample.env "DEFAULT"
                    (mkGetQuerystring (Some Sample.site) (Some "A4") None
                       (Some Sample.two_images)) Sample.start)) =
        trace Sample.start ++
        [EvRunOnPage; EvGoto Sample.site; EvGetPDFOptions "A4";
         EvAxiosGet Sample.logo_url] ++ rest /\
      Forall (fun ev => forall u, ev <> EvAxiosGet u) rest).
Proof.
  pose proof (C9_one_fetch_for_all_images Sample.env Sample.two_images
                [("src", Sample.logo_url)] [[("src", Sample.seal_url)]]
                Sample.logo_url Sample.start eq_refl eq_refl) as (H1 & H2 & H3).
  split; [exact H1|]. split; [exact (H2 Sample.logo_bytes eq_refl)|].
  apply (H3 "DEFAULT" Sample.site (Some "A4") 1
           (Puppeteer.mkPDFOptions (Some "a4") None (Some (defaultMargin "10mm"))
              (Some true) None None None));
    solve [right; reflexivity | discriminate | reflexivity].
Defined.

(** C10: when the fragment has image elements but the first one has no
    [src], inlining fetches nothing and changes no element: its result is the
    parsed fragment serialized back.  A by-URL request with this fragment as
    header (or as footer) assigns that text as the template and goes on to
    [page.pdf] with it; no image is fetched and no error is raised on the
    way. *)
Theorem C10_first_image_without_src env dflt target pdf_option fragment first others l o st :
  target <> "" -> fragment <> "" ->
  Cheerio.select_img (dom_of env fragment) = first :: others ->
  Cheerio.getAttr "src" first = None ->
  navigate env target = inr tt ->
  preset_of env (nullish pdf_option dflt) = inr l ->
  heap st !! l = Some o ->
  let template := html_of env (dom_of env fragment) in
  let name := nullish pdf_option dflt in
  let reply_of (o' : PDFOptions) :=
    match render env (Puppeteer.FromUrl target) o' with
    | inr buffer => pdf_reply buffer
    | inl error =>
        reply_send (SendJson (JObject [("error", JError error); ("url", JString target)]))
          (reply_code 500 new_reply)
    end in
  let calls (o' : PDFOptions) :=
    [EvRunOnPage; EvGoto target; EvGetPDFOptions name;
     EvPdf (Puppeteer.FromUrl target) o'] in
  inline_images env fragment st = (inr template, st) /\
  (let o' := Puppeteer.set_headerTemplate template
               (Puppeteer.set_displayHeaderFooter true o) in
   get_handler env dflt (mkGetQuerystring (Some target) pdf_option (Some fragment) None) st =
   (inr (reply_of o'), log (calls o') (store l o' st))) /\
  (let o' := Puppeteer.set_footerTemplate template
               (Puppeteer.set_displayHeaderFooter true o) in
   get_handler env dflt (mkGetQuerystring (Some target) pdf_option None (Some fragment)) st =
   (inr (reply_of o'), log (calls o') (store l o' st))).
Proof.
  intros Htarget Hfrag Himg Hsrc Hnav Hl Ho. cbv zeta.
  pose proof (image_url_first env fragment first others Himg) as Hurl.
  rewrite Hsrc in Hurl.
  split; [|split].
  - rewrite inline_images_run, Hurl. reflexivity.
  - rewrite (get_handler_run env dflt _ target st) by apply truthy_nonempty, Htarget.
    cbn [q_pdf_option].
    rewrite (get_job_one_fragment env target _ l o fragment
               Puppeteer.set_headerTemplate _ (log [EvRunOnPage] st) Hnav Hl Ho Hfrag)
      by (left; repeat split).
    cbv zeta. rewrite Hurl. cbn [fst snd]. f_equal.
    unfold log, store. cbn [heap trace]. rewrite <- !app_assoc. reflexivity.
  - rewrite (get_handler_run env dflt _ target st) by apply truthy_nonempty, Htarget.
    cbn [q_pdf_option].
    rewrite (get_job_one_fragment env target _ l o fragment
               Puppeteer.set_footerTemplate _ (log [EvRunOnPage] st) Hnav Hl Ho Hfrag)
      by (right; repeat split).
    cbv zeta. rewrite Hurl. cbn [fst snd]. f_equal.
    unfold log, store. cbn [heap trace]. rewrite <- !app_assoc. reflexivity.
Qed.

Lemma C10_witness :
  let o := Puppeteer.mkPDFOptions (Some "a4") None (Some (defaultMargin "10mm"))
             (Some true) None None None in
  let template := html_of Sample.env (dom_of Sample.env Sample.image_without_src) in
  let reply_of (o' : PDFOptions) :=
    match render Sample.env (Puppeteer.FromUrl Sample.site) o' with
    | inr buffer => pdf_reply buffer
    | inl error =>
        reply_send
          (SendJson (JObject [("error", JError error); ("url", JString Sample.site)]))
          (reply_code 500 new_reply)
    end in
  let calls (o' : PDFOptions) :=
    [EvRunOnPage; EvGoto Sample.site; EvGetPDFOptions "A4";
     EvPdf (Puppeteer.FromUrl Sample.site) o'] in
  inline_images Sample.env Sample.image_without_src Sample.start =
    (inr template, Sample.start) /\
  (let o' := Puppeteer.set_headerTemplate template
               (Puppeteer.set_displayHeaderFooter true o) in
   get_handler Sample.env "DEFAULT"
     (mkGetQuerystring (Some Sample.site) (Some "A4")
        (Some Sample.image_without_src) None) Sample.start =
   (inr (reply_of o'), log (calls o') (store 1 o' Sample.start))) /\
  (let o' := Puppeteer.set_footerTemplate template
               (Puppeteer.set_displayHeaderFooter true o) in
   get_handler Sample.env "DEFAULT"
     (mkGetQuerystring (Some Sample.site) (Some "A4") None
        (Some Sample.image_without_src)) Sample.start =
   (inr (reply_of o'), log (calls o') (store 1 o' Sample.start))).
Proof.
  apply (C10_first_image_without_src Sample.env "DEFAULT" Sample.site (Some "A4")
           Sample.image_without_src [("alt", "logo")] [] 1);
    solve [discriminate | reflexivity].
Defined.

(** ** Replies *)

(** C8: after a successful render, from GET as from POST, the reply has status
    200, sends the PDF bytes, and carries Content-Type application/pdf,
    Content-Length equal to the number of bytes, Cache-Control
    no-cache, no-store, must-revalidate, Pragma no-cache and Expires 0. *)
Theorem C8_pdf_reply_headers env dflt :
  (forall query url st buffer,
      truthy (q_url query) = Some url ->
      fst (runOnPage (get_job env url (nullish (q_pdf_option query) dflt) query) st)
        = inr buffer ->
      fst (get_handler env dflt query st) = inr (pdf_reply buffer)) /\
  (forall body html l o st buffer,
      truthy (Some (nullish (b_html body) "")) = Some html ->
      preset_of env (nullish (b_pdf_option body) dflt) = inr l ->
      heap st !! l = Some o ->
      set_content env html = inr tt ->
      render env (Puppeteer.FromHtml html)
        (overlay (b_footer body) Puppeteer.set_footerTemplate
           (overlay (b_header body) Puppeteer.set_headerTemplate o)) = inr buffer ->
      fst (post_handler env dflt (Some body) st) = inr (pdf_reply buffer)) /\
  (forall buffer,
      statusCode (pdf_reply buffer) = 200 /\
      sent (pdf_reply buffer) = Some (SendBuffer buffer) /\
      headers (pdf_reply buffer) = createPDFHttpHeader buffer /\
      header_lookup "Content-Type" (headers (pdf_reply buffer))
        = Some (HString "application/pdf") /\
      header_lookup "Content-Length" (headers (pdf_reply buffer))
        = Some (HNumber (length buffer)) /\
      header_lookup "Cache-Control" (headers (pdf_reply buffer))
        = Some (HString "no-cache, no-store, must-revalidate") /\
      header_lookup "Pragma" (headers (pdf_reply buffer)) = Some (HString "no-cache") /\
      header_lookup "Expires" (headers (pdf_reply buffer)) = Some (HNumber 0)).
Proof.
  split; [|split].
  - intros query url st buffer Hurl Hjob.
    rewrite (get_handler_run env dflt query url st Hurl). cbn [fst].
    change (runOnPage (get_job env url (nullish (q_pdf_option query) dflt) query) st)
      with (get_job env url (nullish (q_pdf_option query) dflt) query
              (log [EvRunOnPage] st)) in Hjob.
    rewrite Hjob. reflexivity.
  - intros body html l o st buffer Hhtml Hl Ho Hset Hrender.
    rewrite (post_handler_run env dflt body html l o st Hhtml Hl Ho). cbv zeta.
    rewrite Hset, Hrender. reflexivity.
  - intros buffer. repeat split.
Qed.

(** C6: a request that fails validation is answered with 400 at once: GET
    without [url] or with an empty one, POST without a body, without [html]
    or with an empty one.  The state after the handler is the state before
    it, so the page pool has not been called and nothing was written. *)
Theorem C6_validation_before_lease env dflt st pdf_option header footer :
  let bad_request (message : string) :=
    mkReply 400 [] (Some (SendJson (JObject [("error", JString message)]))) in
  get_handler env dflt (mkGetQuerystring None pdf_option header footer) st
    = (inr (bad_request "url is required"), st) /\
  get_handler env dflt (mkGetQuerystring (Some "") pdf_option header footer) st
    = (inr (bad_request "url is required"), st) /\
  post_handler env dflt None st
    = (inr (bad_request "request body is empty"), st) /\
  post_handler env dflt (Some (mkPostBody None pdf_option header footer)) st
    = (inr (bad_request "html is required"), st) /\
  post_handler env dflt (Some (mkPostBody (Some "") pdf_option header footer)) st
    = (inr (bad_request "html is required"), st).
Proof. repeat split. Qed.

Lemma C8_witness :
  fst (get_handler Sample.env "DEFAULT" Sample.by_url_with_logo Sample.start)
    = inr (pdf_reply Sample.pdf_bytes) /\
  fst (post_handler Sample.env "DEFAULT" (Some Sample.by_html_with_header) Sample.start)
    = inr (pdf_reply Sample.pdf_bytes) /\
  header_lookup "Content-Length" (headers (pdf_reply Sample.pdf_bytes)) = Some (HNumber 4).
Proof.
  destruct (C8_pdf_reply_headers Sample.env "DEFAULT") as (Hget & Hpost & Hreply).
  split; [|split].
  - apply (Hget Sample.by_url_with_logo Sample.site Sample.start); reflexivity.
  - apply (Hpost Sample.by_html_with_header "<p>hi</p>" 0
             (Puppeteer.mkPDFOptions (Some "a4") (Some false) (Some (defaultMargin "10mm"))
                (Some true) None None None) Sample.start);
      reflexivity.
  - apply Hreply.
Defined.

(** C7: in a by-HTML request that passes validation, a header (footer) that
    is present and not empty becomes [headerTemplate] ([footerTemplate]) as it
    is, with [displayHeaderFooter] set to true; a template whose fragment is
    not supplied keeps the value of the preset's record, and with neither
    fragment the record is handed to [page.pdf] unchanged.  The handler calls
    the preset lookup, the page pool, [page.setContent] and [page.pdf], and
    nothing else: no image is fetched. *)
Theorem C7_literal_templates env dflt body html l o st :
  truthy (Some (nullish (b_html body) "")) = Some html ->
  preset_of env (nullish (b_pdf_option body) dflt) = inr l ->
  heap st !! l = Some o ->
  exists o',
    trace (snd (post_handler env dflt (Some body) st)) =
      trace st ++
      [EvGetPDFOptions (nullish (b_pdf_option body) dflt); EvRunOnPage; EvSetContent html] ++
      match set_content env html with
      | inr _ => [EvPdf (Puppeteer.FromHtml html) o']
      | inl _ => []
      end /\
    (forall h, truthy (b_header body) = Some h ->
       Puppeteer.headerTemplate o' = Some h /\ Puppeteer.displayHeaderFooter o' = Some true) /\
    (forall f, truthy (b_footer body) = Some f ->
       Puppeteer.footerTemplate o' = Some f /\ Puppeteer.displayHeaderFooter o' = Some true) /\
    (truthy (b_header body) = None ->
       Puppeteer.headerTemplate o' = Puppeteer.headerTemplate o) /\
    (truthy (b_footer body) = None ->
       Puppeteer.footerTemplate o' = Puppeteer.footerTemplate o) /\
    (truthy (b_header body) = None -> truthy (b_footer body) = None -> o' = o).
Proof.
  intros Hhtml Hl Ho.
  exists (overlay (b_footer body) Puppeteer.set_footerTemplate
            (overlay (b_header body) Puppeteer.set_headerTemplate o)).
  split.
  - rewrite (post_handler_run env dflt body html l o st Hhtml Hl Ho). cbv zeta.
    destruct (set_content env html) as [e|[]]; cbn [snd log store trace].
    + rewrite app_nil_r. reflexivity.
    + rewrite <- app_assoc. reflexivity.
  - unfold overlay.
    destruct (truthy (b_header body)) as [h|], (truthy (b_footer body)) as [f|];
      repeat split; intros; try discriminate;
      repeat match goal with H : Some _ = Some _ |- _ => injection H as <- end;
      reflexivity.
Qed.

Lemma C7_witness :
  exists o',
    trace (snd (post_handler Sample.env "DEFAULT" (Some Sample.by_html_with_header)
                  Sample.start)) =
      [EvGetPDFOptions "DEFAULT"; EvRunOnPage; EvSetContent "<p>hi</p>";
       EvPdf (Puppeteer.FromHtml "<p>hi</p>") o'] /\
    Puppeteer.headerTemplate o' = Some "<div>H</div>" /\
    Puppeteer.displayHeaderFooter o' = Some true /\
    Puppeteer.footerTemplate o' = None.
Proof.
  destruct (C7_literal_templates Sample.env "DEFAULT" Sample.by_html_with_header
              "<p>hi</p>" 0
              (Puppeteer.mkPDFOptions (Some "a4") (Some false) (Some (defaultMargin "10mm"))
                 (Some true) None None None)
              Sample.start eq_refl eq_refl eq_refl)
    as (o' & Htrace & Hheader & _ & _ & Hfooter & _).
  exists o'. split; [exact Htrace|].
  destruct (Hheader "<div>H</div>" eq_refl) as [Ht Hd].
  split; [exact Ht|]. split; [exact Hd|]. exact (Hfooter eq_refl).
Defined.

(** ** Order of the calls of a by-URL request *)


(** ** The registry across a request *)


Lemma heap_frame_layout l l' (h h' : gmap nat PDFOptions) :
  heap_frame l h h' -> layout_kept (h !! l') (h' !! l').
Proof.
  intros [Hother Hl]. destruct (decide (l' = l)) as [->|Hne]; [exact Hl|].
  rewrite (Hother l' Hne). unfold layout_kept.
  destruct (h !! l'); [apply same_layout_refl | exact I].
Qed.

Lemma layout_kept_eq (h h' : gmap nat PDFOptions) l :
  h' = h -> layout_kept (h !! l) (h' !! l).
Proof.
  intros ->. unfold layout_kept. destruct (h !! l); [apply same_layout_refl | exact I].
Qed.

(** * Further properties *)

(** ** [trim], [split] and the launch arguments *)

Lemma trim_start_spec s :
  exists ws,
    s = ws ++ JSString.trim_start s /\
    Forall (fun c => JSString.is_white_space c = true) ws /\
    (forall c rest, JSString.trim_start s = c :: rest -> JSString.is_white_space c = false).
Proof.
  induction s as [|c s (ws & Hs & Hws & Hhead)]; cbn [JSString.trim_start].
  - exists []. repeat split; [constructor | discriminate].
  - destruct (JSString.is_white_space c) eqn:Hc.
    + exists (c :: ws). cbn. rewrite <- Hs. repeat split; [constructor; assumption | exact Hhead].
    + exists []. repeat split; [constructor|]. intros c' rest [= <- _]. exact Hc.
Qed.

Lemma trim_end_spec s :
  exists ws,
    s = JSString.trim_end s ++ ws /\
    Forall (fun c => JSString.is_white_space c = true) ws /\
    (forall front c, JSString.trim_end s = front ++ [c] -> JSString.is_white_space c = false).
Proof.
  unfold JSString.trim_end.
  destruct (trim_start_spec (rev s)) as (ws & Hs & Hws & Hhead).
  exists (rev ws). repeat split.
  - rewrite <- rev_app_distr, <- Hs, rev_involutive. reflexivity.
  - apply Forall_forall. intros c Hc. rewrite Forall_forall in Hws.
    apply Hws. apply list_elem_of_In. apply list_elem_of_In in Hc.
    apply in_rev. exact Hc.
  - intros front c Hrev. apply (Hhead c (rev front)).
    rewrite <- (rev_involutive (JSString.trim_start (rev s))), Hrev, rev_app_distr.
    reflexivity.
Qed.

Lemma trim_start_all_white s :
  Forall (fun c => JSString.is_white_space c = true) s -> JSString.trim_start s = [].
Proof.
  induction 1 as [|c s Hc _ IH]; [reflexivity|]. cbn. rewrite Hc. exact IH.
Qed.

(** X1: [trim] removes white space from the two ends and nothing else:
    the string is a run of white space, then the trimmed string, then a run
    of white space, and the trimmed string neither starts nor ends with white
    space. *)
Theorem trim_strips_both_ends s :
  exists pre post,
    s = pre ++ JSString.trim s ++ post /\
    Forall (fun c => JSString.is_white_space c = true) pre /\
    Forall (fun c => JSString.is_white_space c = true) post /\
    (forall c rest, JSString.trim s = c :: rest -> JSString.is_white_space c = false) /\
    (forall front c, JSString.trim s = front ++ [c] -> JSString.is_white_space c = false).
Proof.
  unfold JSString.trim.
  destruct (trim_start_spec s) as (pre & Hs & Hpre & Hhead).
  destruct (trim_end_spec (JSString.trim_start s)) as (post & Ht & Hpost & Hlast).
  exists pre, post. split; [|split; [exact Hpre|split; [exact Hpost|split; [|exact Hlast]]]].
  - rewrite <- Ht. exact Hs.
  - intros c rest Hc. apply (Hhead c (rest ++ post)).
    rewrite Ht at 1. rewrite Hc. reflexivity.
Qed.

Lemma trim_strips_both_ends_witness :
  exists pre post,
    JSString.of_ascii "  --headless " = pre ++ JSString.trim (JSString.of_ascii "  --headless ") ++ post /\
    Forall (fun c => JSString.is_white_space c = true) pre /\
    Forall (fun c => JSString.is_white_space c = true) post /\
    (forall c rest,
        JSString.trim (JSString.of_ascii "  --headless ") = c :: rest ->
        JSString.is_white_space c = false) /\
    (forall front c,
        JSString.trim (JSString.of_ascii "  --headless ") = front ++ [c] ->
        JSString.is_white_space c = false).
Proof.
  apply (trim_strips_both_ends (JSString.of_ascii "  --headless ")).
Defined.


Lemma split_cons sep c s :
  JSString.split sep (c :: s) =
  if (c =? sep)%N then [] :: JSString.split sep s
  else match JSString.split sep s with
       | part :: parts => (c :: part) :: parts
       | [] => [[c]]
       end.
Proof. reflexivity. Qed.

Lemma split_not_nil sep s : JSString.split sep s <> [].
Proof.
  destruct s as [|c s]; cbn; [discriminate|].
  destruct (c =? sep)%N; [discriminate|].
  destruct (JSString.split sep s); discriminate.
Qed.

Lemma join_cons sep part parts :
  parts <> [] ->
  JSString.join sep (part :: parts) = part ++ sep :: JSString.join sep parts.
Proof. destruct parts; [contradiction | reflexivity]. Qed.

Lemma join_split sep s : JSString.join sep (JSString.split sep s) = s.
Proof.
  induction s as [|c s IH]; [reflexivity|]. cbn [JSString.split].
  destruct (N.eqb_spec c sep) as [->|Hne].
  - rewrite join_cons by apply split_not_nil. rewrite IH. reflexivity.
  - pose proof (split_not_nil sep s) as Hnil.
    destruct (JSString.split sep s) as [|part parts]; [contradiction|].
    destruct parts as [|q parts].
    + cbn in *. rewrite IH. reflexivity.
    + rewrite join_cons in IH by discriminate.
      rewrite join_cons by discriminate. rewrite <- IH. reflexivity.
Qed.

Lemma split_no_separator sep s :
  Forall (fun part => ~ In sep part) (JSString.split sep s).
Proof.
  induction s as [|c s IH]; cbn [JSString.split].
  - repeat constructor. intros [].
  - destruct (N.eqb_spec c sep) as [->|Hne].
    + constructor; [intros []|exact IH].
    + destruct (JSString.split sep s) as [|part parts].
      * repeat constructor. intros [H|[]]. congruence.
      * inversion IH as [|? ? Hpart Hparts]; subst. constructor; [|exact Hparts].
        intros [H|H]; [congruence | contradiction].
Qed.

Lemma split_length sep s :
  length (JSString.split sep s) = S (count_occ N.eq_dec s sep).
Proof.
  induction s as [|c s IH]; [reflexivity|]. cbn [JSString.split count_occ].
  destruct (N.eqb_spec c sep) as [->|Hne].
  - destruct (N.eq_dec sep sep); [|contradiction]. cbn. rewrite IH. reflexivity.
  - destruct (N.eq_dec c sep); [contradiction|].
    pose proof (split_not_nil sep s) as Hnil.
    destruct (JSString.split sep s); [contradiction | exact IH].
Qed.

Lemma split_join sep parts :
  parts <> [] -> Forall (fun part => ~ In sep part) parts ->
  JSString.split sep (JSString.join sep parts) = parts.
Proof.
  assert (Hpart : forall part rest,
             ~ In sep part ->
             JSString.split sep (part ++ rest) =
             match JSString.split sep rest with
             | q :: qs => (part ++ q) :: qs
             | [] => [part]
             end).
  { induction part as [|c part IH]; intros rest Hno.
    - cbn. destruct (JSString.split sep rest) eqn:E; [|reflexivity].
      exfalso. exact (split_not_nil _ _ E).
    - change ((c :: part) ++ rest) with (c :: (part ++ rest)). rewrite split_cons.
      destruct (N.eqb_spec c sep) as [->|Hne]; [exfalso; apply Hno; left; reflexivity|].
      rewrite IH by (intros H; apply Hno; right; exact H).
      destruct (JSString.split sep rest); reflexivity. }
  induction parts as [|part parts IH]; [contradiction|].
  intros _ Hall. inversion Hall as [|? ? Hno Hrest]; subst.
  destruct parts as [|q parts].
  - cbn [JSString.join]. rewrite <- (app_nil_r part) at 1.
    rewrite Hpart by exact Hno. cbn. rewrite app_nil_r. reflexivity.
  - rewrite join_cons by discriminate.
    rewrite Hpart by exact Hno. rewrite split_cons, N.eqb_refl.
    rewrite IH by (discriminate || exact Hrest). rewrite app_nil_r. reflexivity.
Qed.

(** X2: The launch arguments are the pieces of the trimmed constant between
    its commas: there is always at least one argument, one more than there
    are commas; no argument contains a comma; joined with commas they give the
    trimmed constant back, white space next to a comma included; and no other
    list of comma-free pieces does so. *)
Theorem launch_args_are_the_comma_pieces B :
  let args := buildBrowserLaunchArgs B in
  args <> [] /\
  length args = S (count_occ N.eq_dec (JSString.trim B) JSString.comma) /\
  Forall (fun a => ~ In JSString.comma a) args /\
  JSString.join JSString.comma args = JSString.trim B /\
  (forall pieces,
      pieces <> [] -> Forall (fun a => ~ In JSString.comma a) pieces ->
      JSString.join JSString.comma pieces = JSString.trim B -> pieces = args).
Proof.
  cbv zeta. unfold buildBrowserLaunchArgs.
  split; [apply split_not_nil|]. split; [apply split_length|].
  split; [apply split_no_separator|]. split; [apply join_split|].
  intros pieces Hnil Hno Hjoin. rewrite <- Hjoin. symmetry.
  apply split_join; assumption.
Qed.

Lemma launch_args_are_the_comma_pieces_witness :
  [JSString.of_ascii "--no-sandbox"; JSString.of_ascii "--disable-gpu"] =
  buildBrowserLaunchArgs (BROWSER_LAUNCH_ARGS Scenario.constants).
Proof.
  apply (proj2 (proj2 (proj2 (proj2
           (launch_args_are_the_comma_pieces (BROWSER_LAUNCH_ARGS Scenario.constants)))))).
  - discriminate.
  - repeat (apply List.Forall_cons;
            [vm_compute; intros H; repeat destruct H as [H|H]; discriminate || exact H|]).
    apply List.Forall_nil.
  - reflexivity.
Defined.


(** X3: A constant that is empty or all white space gives one argument,
    the empty string, not an empty list of arguments. *)
Theorem blank_launch_args B :
  Forall (fun c => JSString.is_white_space c = true) B ->
  buildBrowserLaunchArgs B = [[]].
Proof.
  intros Hws. unfold buildBrowserLaunchArgs, JSString.trim.
  rewrite (trim_start_all_white B Hws). reflexivity.
Qed.

Lemma blank_launch_args_witness :
  buildBrowserLaunchArgs (JSString.of_ascii "   ") = [[]].
Proof.
  apply blank_launch_args. repeat constructor.
Defined.

(** ** The configuration of [app] *)

Lemma field_spread (a b : gmap string Value) k :
  field (spread a b) k =
  match b !! k with
  | Some v => v
  | None => field a k
  end.
Proof.
  unfold field, spread. rewrite lookup_union.
  destruct (b !! k), (a !! k); reflexivity.
Qed.

Lemma app_unfold c appConfig :
  let pick (k : string) (d : Value) :=
    match appConfig !! k with
    | Some v => v
    | None => d
    end in
  app c appConfig =
  mkServer (pick "fastifyLogLevel" (FASTIFY_LOG_LEVEL c))
    (pick "fastifyBodyLimit" (FASTIFY_BODY_LIMIT c))
    ([ Plugin_hcPDFOptions (pick "presetPdfOptionsFilePath" (PRESET_PDF_OPTIONS_FILE_PATH c));
       Plugin_formBody;
       Plugin_hcPages (pick "pagesNum" (PAGES_NUM c))
         [ ("userAgent", pick "userAgent" (USER_AGENT c));
           ("pageTimeoutMilliseconds",
            pick "pageTimeoutMilliseconds" (PAGE_TIMEOUT_MILLISECONDS c));
           ("emulateMediaTypeScreenEnabled",
            pick "emulateMediaTypeScreenEnabled" (EMULATE_MEDIA_TYPE_SCREEN_ENABLED c));
           ("acceptLanguage", pick "acceptLanguage" (ACCEPT_LANGUAGE c));
           ("viewport", pick "viewport" (DEFAULT_VIEWPORT c)) ]
         (buildBrowserLaunchArgs (BROWSER_LAUNCH_ARGS c)) ] ++
     (if to_boolean (pick "bearerAuthSecretKey" (BEARER_AUTH_SECRET_KEY c))
      then [Plugin_bearerAuth [pick "bearerAuthSecretKey" (BEARER_AUTH_SECRET_KEY c)]]
      else []) ++
     [ Route "GET" "/"; Route "POST" "/"; Route "GET" "/pdf_options" ]).
Proof.
  cbv zeta. unfold app. rewrite !field_spread. reflexivity.
Qed.

(** X4: The bearer-auth plugin is registered exactly when the secret is
    truthy, and then with that secret as its only key.  The secret is the
    value [appConfig] has under [bearerAuthSecretKey] when it has that key,
    the constant otherwise; so a caller that passes the key with an empty
    string or with [undefined] switches authentication off, whatever the
    constant is. *)
Theorem bearer_auth_iff_truthy_secret c appConfig :
  let secret :=
    match appConfig !! "bearerAuthSecretKey" with
    | Some v => v
    | None => BEARER_AUTH_SECRET_KEY c
    end in
  (forall keys,
      In (Plugin_bearerAuth keys) (registrations (app c appConfig)) <->
      to_boolean secret = true /\ keys = [secret]) /\
  (appConfig !! "bearerAuthSecretKey" = Some (VString "") \/
   appConfig !! "bearerAuthSecretKey" = Some VUndefined ->
   forall keys, ~ In (Plugin_bearerAuth keys) (registrations (app c appConfig))).
Proof.
  cbv zeta.
  assert (Hiff : forall keys,
             In (Plugin_bearerAuth keys) (registrations (app c appConfig)) <->
             to_boolean match appConfig !! "bearerAuthSecretKey" with
                        | Some v => v
                        | None => BEARER_AUTH_SECRET_KEY c
                        end = true /\
             keys = [match appConfig !! "bearerAuthSecretKey" with
                     | Some v => v
                     | None => BEARER_AUTH_SECRET_KEY c
                     end]).
  { intros keys. rewrite app_unfold. cbv zeta. cbn [registrations].
    destruct (to_boolean _) eqn:Hb; cbn [In app]; split.
    - intros [H|[H|[H|[H|[H|[H|[H|[]]]]]]]]; try discriminate.
      injection H as <-. split; reflexivity.
    - intros [_ ->]. do 3 right. left. reflexivity.
    - intros [H|[H|[H|[H|[H|[H|[]]]]]]]; discriminate.
    - intros [H _]. discriminate. }
  split; [exact Hiff|].
  intros Hoff keys Hin. apply Hiff in Hin as [Htrue _].
  destruct Hoff as [Hoff|Hoff]; rewrite Hoff in Htrue; discriminate.
Qed.

Lemma bearer_auth_iff_truthy_secret_witness :
  In (Plugin_bearerAuth [VString "secret"]) (registrations (app Scenario.constants ∅)) /\
  forall keys,
    ~ In (Plugin_bearerAuth keys)
        (registrations (app Scenario.constants {["bearerAuthSecretKey" := VUndefined]})).
Proof.
  split.
  - apply (proj1 (bearer_auth_iff_truthy_secret Scenario.constants ∅)).
    split; reflexivity.
  - apply (proj2 (bearer_auth_iff_truthy_secret Scenario.constants
                    {["bearerAuthSecretKey" := VUndefined]})).
    right. reflexivity.
Defined.

(** X5: Whatever [appConfig] holds, [app] registers the preset plugin, the
    form-body plugin and the page pool in this order, then at most the
    bearer-auth plugin, then the three routes; and the launch arguments of
    the page pool are those of the constant: [appConfig] has no key that
    changes them or the routes. *)
Theorem app_registers_in_order c appConfig :
  exists filePath pagesNum pageOptions auth,
    registrations (app c appConfig) =
      [ Plugin_hcPDFOptions filePath; Plugin_formBody;
        Plugin_hcPages pagesNum pageOptions
          (buildBrowserLaunchArgs (BROWSER_LAUNCH_ARGS c)) ] ++
      auth ++ [ Route "GET" "/"; Route "POST" "/"; Route "GET" "/pdf_options" ] /\
    (auth = [] \/ exists key, auth = [Plugin_bearerAuth [key]]) /\
    map fst pageOptions =
      [ "userAgent"; "pageTimeoutMilliseconds"; "emulateMediaTypeScreenEnabled";
        "acceptLanguage"; "viewport" ].
Proof.
  rewrite app_unfold. cbv zeta. cbn [registrations].
  do 4 eexists. split; [reflexivity|]. split; [|reflexivity].
  destruct (to_boolean _); [right; eexists; reflexivity | left; reflexivity].
Qed.

(** ** More on the by-URL handler *)

(** X6: The GET handler never lets an error out: for every request and
    state it replies, with the 400 of the missing URL, with the 500 that
    carries the error and the URL, or with the PDF reply. *)
Theorem get_handler_always_replies env dflt query st :
  exists reply,
    fst (get_handler env dflt query st) = inr reply /\
    ((truthy (q_url query) = None /\
      reply = mkReply 400 [] (Some (SendJson (JObject [("error", JString "url is required")])))) \/
     (exists url e, truthy (q_url query) = Some url /\ reply = get_error_reply e url) \/
     (exists url buffer, truthy (q_url query) = Some url /\ reply = pdf_reply buffer)).
Proof.
  destruct (truthy (q_url query)) as [url|] eqn:Hurl.
  - rewrite (get_handler_run env dflt query url st Hurl). cbn [fst].
    destruct (fst (get_job env url (nullish (q_pdf_option query) dflt) query
                     (log [EvRunOnPage] st))) as [e|buffer];
      eexists; (split; [reflexivity|]); right; [left|right]; eauto.
  - unfold get_handler. rewrite Hurl. eexists. split; [reflexivity|]. left. auto.
Qed.

Lemma get_job_navigation_fails env url name query e st :
  navigate env url = inl e ->
  get_job env url name query st = (inl e, log [EvGoto url] st).
Proof.
  intros Hnav. unfold get_job. unfold bind at 1. rewrite page_goto_run, Hnav.
  reflexivity.
Qed.

Lemma get_job_resolution_fails env url name query e st :
  navigate env url = inr tt -> preset_of env name = inl e ->
  get_job env url name query st = (inl e, log [EvGoto url; EvGetPDFOptions name] st).
Proof.
  intros Hnav Hl. unfold get_job. unfold bind at 1. rewrite page_goto_run, Hnav.
  unfold bind at 1. rewrite getPDFOptions_run, Hl, log_log. reflexivity.
Qed.

(** X7: When the navigation fails nothing else is called: the preset is not
    resolved, no image is fetched, no render is asked for and the heap is as
    before.  When the navigation succeeds and the resolution of the preset
    fails, the same holds from there on.  Both end in the 500 reply with the
    error of the failed step. *)
Theorem get_stops_at_first_failure env dflt query url e st :
  truthy (q_url query) = Some url ->
  let name := nullish (q_pdf_option query) dflt in
  (navigate env url = inl e ->
   get_handler env dflt query st =
   (inr (get_error_reply e url), log [EvRunOnPage; EvGoto url] st)) /\
  (navigate env url = inr tt -> preset_of env name = inl e ->
   get_handler env dflt query st =
   (inr (get_error_reply e url), log [EvRunOnPage; EvGoto url; EvGetPDFOptions name] st)).
Proof.
  intros Hurl name. split.
  - intros Hnav. rewrite (get_handler_run env dflt query url st Hurl).
    rewrite (get_job_navigation_fails env url _ query e _ Hnav).
    cbn [fst snd]. rewrite log_log. reflexivity.
  - intros Hnav Hl. rewrite (get_handler_run env dflt query url st Hurl).
    rewrite (get_job_resolution_fails env url _ query e _ Hnav Hl).
    cbn [fst snd]. rewrite log_log. reflexivity.
Qed.

Lemma get_stops_at_first_failure_witness :
  get_handler Scenario.env "DEFAULT" Sample.by_url_down Sample.start =
    (inr (get_error_reply (JsError "net::ERR_CONNECTION_REFUSED") Scenario.down_url),
     log [EvRunOnPage; EvGoto Scenario.down_url] Sample.start) /\
  get_handler Scenario.env "DEFAULT"
    (mkGetQuerystring (Some Sample.site) (Some "missing") (Some Sample.one_image) None)
    Sample.start =
    (inr (get_error_reply (JsError "unknown preset") Sample.site),
     log [EvRunOnPage; EvGoto Sample.site; EvGetPDFOptions "missing"] Sample.start).
Proof.
  split.
  - apply (proj1 (get_stops_at_first_failure Scenario.env "DEFAULT" Sample.by_url_down
                    Scenario.down_url (JsError "net::ERR_CONNECTION_REFUSED")
                    Sample.start eq_refl)).
    reflexivity.
  - apply (proj2 (get_stops_at_first_failure Scenario.env "DEFAULT"
                    (mkGetQuerystring (Some Sample.site) (Some "missing")
                       (Some Sample.one_image) None)
                    Sample.site (JsError "unknown preset") Sample.start eq_refl));
      reflexivity.
Defined.

Lemma inline_images_result env fragment st :
  inline_images env fragment st =
  (inline_result env fragment, log (inline_calls env fragment) st).
Proof.
  rewrite inline_images_run. unfold inline_result, inline_calls.
  destruct (image_url env fragment) as [url|]; [reflexivity|].
  rewrite log_nil. reflexivity.
Qed.

(** One block of the GET handler, by the outcome of the inlining. *)
Lemma apply_fragment_result env l fragment f set_template o st :
  truthy fragment = Some f ->
  heap st !! l = Some o ->
  apply_fragment env l fragment set_template st =
  let o1 := Puppeteer.set_displayHeaderFooter true o in
  match inline_result env f with
  | inr template =>
      (inr tt, log (inline_calls env f) (store l (set_template template o1) st))
  | inl e => (inl e, log (inline_calls env f) (store l o1 st))
  end.
Proof.
  intros Hf Hl. rewrite (apply_fragment_run env l fragment f set_template o st Hf Hl).
  cbv zeta. unfold inline_result, inline_calls.
  destruct (image_url env f) as [url|]; [destruct (http_get env url); reflexivity|].
  rewrite log_nil. reflexivity.
Qed.

(** X8: a failed image fetch leaves a half-written record.  When the fetch
    for the header fails, the record already has [displayHeaderFooter] set
    to true while its [headerTemplate] is what it was; the footer is not
    looked at and [page.pdf] is not called.  When the header went through and
    the fetch for the footer fails, the record keeps the new header
    template.  The reply is the 500 with the error of the fetch. *)
Theorem failed_fetch_leaves_partial_write env dflt query url l o h e st :
  truthy (q_url query) = Some url ->
  let name := nullish (q_pdf_option query) dflt in
  navigate env url = inr tt ->
  preset_of env name = inr l ->
  heap st !! l = Some o ->
  truthy (q_header query) = Some h ->
  let o1 := Puppeteer.set_displayHeaderFooter true o in
  (inline_result env h = inl e ->
   get_handler env dflt query st =
   (inr (get_error_reply e url),
    log ([EvRunOnPage; EvGoto url; EvGetPDFOptions name] ++ inline_calls env h)
      (store l o1 st))) /\
  (forall th f,
      inline_result env h = inr th ->
      truthy (q_footer query) = Some f ->
      inline_result env f = inl e ->
      get_handler env dflt query st =
      (inr (get_error_reply e url),
       log ([EvRunOnPage; EvGoto url; EvGetPDFOptions name] ++
            inline_calls env h ++ inline_calls env f)
         (store l (Puppeteer.set_displayHeaderFooter true
                     (Puppeteer.set_headerTemplate th o1)) st))).
Proof.
  intros Hurl name Hnav Hl Ho Hh o1.
  assert (Ho' : heap (log [EvGoto url; EvGetPDFOptions name] (log [EvRunOnPage] st)) !! l
                = Some o) by exact Ho.
  split.
  - intros Hfail. rewrite (get_handler_run env dflt query url st Hurl).
    rewrite (get_job_run_ok env url _ query l _ Hnav Hl).
    unfold bind at 1 3.
    rewrite (apply_fragment_result env l _ h _ o _ Hh Ho'). cbv zeta. rewrite Hfail.
    cbn [fst snd]. rewrite ?store_log, ?log_log. reflexivity.
  - intros th f Hth Hf Hfail. rewrite (get_handler_run env dflt query url st Hurl).
    rewrite (get_job_run_ok env url _ query l _ Hnav Hl).
    unfold bind at 1 3.
    rewrite (apply_fragment_result env l _ h _ o _ Hh Ho'). cbv zeta. rewrite Hth.
    unfold bind at 1 2.
    rewrite (apply_fragment_result env l _ f _ (Puppeteer.set_headerTemplate th o1) _ Hf)
      by apply heap_store.
    cbv zeta. rewrite Hfail. cbn [fst snd].
    rewrite ?store_log, ?store_store, ?log_log, <- ?app_assoc. reflexivity.
Qed.

Lemma failed_fetch_leaves_partial_write_witness :
  get_handler Scenario.env "DEFAULT"
    (mkGetQuerystring (Some Sample.site) (Some "A4") (Some Scenario.image_unreachable)
       (Some Sample.one_image)) Sample.start =
  (inr (get_error_reply (JsError "connect ECONNREFUSED") Sample.site),
   log [EvRunOnPage; EvGoto Sample.site; EvGetPDFOptions "A4"; EvAxiosGet Sample.seal_url]
     (store 1 (Puppeteer.set_displayHeaderFooter true Scenario.a4) Sample.start)).
Proof.
  apply (proj1 (failed_fetch_leaves_partial_write Scenario.env "DEFAULT"
                  (mkGetQuerystring (Some Sample.site) (Some "A4")
                     (Some Scenario.image_unreachable) (Some Sample.one_image))
                  Sample.site 1 Scenario.a4 Scenario.image_unreachable
                  (JsError "connect ECONNREFUSED") Sample.start
                  eq_refl eq_refl eq_refl eq_refl eq_refl)).
  reflexivity.
Defined.

(** X9: a by-URL request with a header and a footer whose inlinings both
    succeed.  The header is inlined and assigned first, then the footer; the
    record ends with both templates and [displayHeaderFooter] true, and
    [page.pdf] gets exactly that record.  The calls are: page pool,
    navigation, preset, the fetch of the header (if it has an image), the
    fetch of the footer (if it has one), render. *)
Theorem header_then_footer env dflt query url l o h f th tf st :
  truthy (q_url query) = Some url ->
  let name := nullish (q_pdf_option query) dflt in
  navigate env url = inr tt ->
  preset_of env name = inr l ->
  heap st !! l = Some o ->
  truthy (q_header query) = Some h -> inline_result env h = inr th ->
  truthy (q_footer query) = Some f -> inline_result env f = inr tf ->
  let o' := Puppeteer.mkPDFOptions (Puppeteer.format o) (Puppeteer.landscape o)
              (Puppeteer.margin o) (Puppeteer.printBackground o)
              (Some true) (Some th) (Some tf) in
  get_handler env dflt query st =
  (inr match render env (Puppeteer.FromUrl url) o' with
       | inr buffer => pdf_reply buffer
       | inl e => get_error_reply e url
       end,
   log ([EvRunOnPage; EvGoto url; EvGetPDFOptions name] ++
        inline_calls env h ++ inline_calls env f ++ [EvPdf (Puppeteer.FromUrl url) o'])
     (store l o' st)).
Proof.
  intros Hurl name Hnav Hl Ho Hh Hth Hf Htf o'.
  assert (Ho' : heap (log [EvGoto url; EvGetPDFOptions name] (log [EvRunOnPage] st)) !! l
                = Some o) by exact Ho.
  rewrite (get_handler_run env dflt query url st Hurl).
  rewrite (get_job_run_ok env url _ query l _ Hnav Hl).
  unfold bind at 1 3.
  rewrite (apply_fragment_result env l _ h _ o _ Hh Ho'). cbv zeta. rewrite Hth.
  unfold bind at 1 2.
  rewrite (apply_fragment_result env l _ f _
             (Puppeteer.set_headerTemplate th (Puppeteer.set_displayHeaderFooter true o))
             _ Hf)
    by apply heap_store.
  cbv zeta. rewrite Htf, !page_pdf_run. cbv zeta.
  rewrite ?store_log, ?store_store. cbn [log heap].
  rewrite heap_store. change (default Puppeteer.empty (Some ?x)) with x.
  change (Puppeteer.set_footerTemplate tf
            (Puppeteer.set_displayHeaderFooter true
               (Puppeteer.set_headerTemplate th
                  (Puppeteer.set_displayHeaderFooter true o)))) with o'.
  cbn [fst snd].
  destruct (render env (Puppeteer.FromUrl url) o'); f_equal;
    unfold log, store; cbn [heap trace]; rewrite <- ?app_assoc; reflexivity.
Qed.

Lemma header_then_footer_witness :
  let o' := Puppeteer.mkPDFOptions (Some "a4") None (Some (defaultMargin "10mm"))
              (Some true) (Some true)
              (Some "<img src='data:image/png;base64,iVBORw=='></img>")
              (Some "<div>H</div>") in
  get_handler Scenario.env "DEFAULT"
    (mkGetQuerystring (Some Sample.site) (Some "A4") (Some Sample.one_image)
       (Some Sample.no_image)) Sample.start =
  (inr (pdf_reply Sample.pdf_bytes),
   log [EvRunOnPage; EvGoto Sample.site; EvGetPDFOptions "A4";
        EvAxiosGet Sample.logo_url; EvPdf (Puppeteer.FromUrl Sample.site) o']
     (store 1 o' Sample.start)).
Proof.
  apply (header_then_footer Scenario.env "DEFAULT"
           (mkGetQuerystring (Some Sample.site) (Some "A4") (Some Sample.one_image)
              (Some Sample.no_image))
           Sample.site 1 Scenario.a4 Sample.one_image Sample.no_image
           "<img src='data:image/png;base64,iVBORw=='></img>" "<div>H</div>" Sample.start);
    reflexivity.
Defined.

(** X10: an empty header or footer counts as none.  In both handlers a
    request with [header] (or [footer]) equal to the empty string runs
    exactly as the same request without that field. *)
Theorem empty_fragment_is_no_fragment env dflt st url html pdf_option other :
  get_handler env dflt (mkGetQuerystring url pdf_option (Some "") other) st =
    get_handler env dflt (mkGetQuerystring url pdf_option None other) st /\
  get_handler env dflt (mkGetQuerystring url pdf_option other (Some "")) st =
    get_handler env dflt (mkGetQuerystring url pdf_option other None) st /\
  post_handler env dflt (Some (mkPostBody html pdf_option (Some "") other)) st =
    post_handler env dflt (Some (mkPostBody html pdf_option None other)) st /\
  post_handler env dflt (Some (mkPostBody html pdf_option other (Some ""))) st =
    post_handler env dflt (Some (mkPostBody html pdf_option other None)) st.
Proof. repeat split. Qed.

Lemma get_job_resolves env url name query st :
  navigate env url = inr tt ->
  exists rest,
    trace (snd (get_job env url name query st)) =
    trace st ++ [EvGoto url; EvGetPDFOptions name] ++ rest.
Proof.
  intros Hnav. destruct (preset_of env name) as [e|l] eqn:Hl.
  { rewrite (get_job_resolution_fails env url name query e st Hnav Hl).
    exists []. reflexivity. }
  rewrite (get_job_run_ok env url name query l st Hnav Hl).
  set (st0 := log [EvGoto url; EvGetPDFOptions name] st).
  assert (T0 : trace st0 = trace st ++ [EvGoto url; EvGetPDFOptions name]) by reflexivity.
  clearbody st0.
  unfold bind at 1.
  destruct (apply_fragment_effect env l (q_header query) Puppeteer.set_headerTemplate st0
              same_layout_header) as (f1 & T1 & _).
  destruct (apply_fragment env l (q_header query) Puppeteer.set_headerTemplate st0)
    as [[e|[]] st1]; cbn [snd] in *.
  { exists f1. rewrite T1, T0, <- app_assoc. reflexivity. }
  unfold bind at 1.
  destruct (apply_fragment_effect env l (q_footer query) Puppeteer.set_footerTemplate st1
              same_layout_footer) as (f2 & T2 & _).
  destruct (apply_fragment env l (q_footer query) Puppeteer.set_footerTemplate st1)
    as [[e|[]] st2]; cbn [snd] in *.
  { exists (f1 ++ f2). rewrite T2, T1, T0, <- !app_assoc. reflexivity. }
  rewrite page_pdf_run. cbv zeta. cbn [snd log trace].
  eexists (f1 ++ f2 ++ [_]). rewrite T2, T1, T0, <- !app_assoc. reflexivity.
Qed.

Lemma post_handler_resolves env dflt body html st :
  truthy (Some (nullish (b_html body) "")) = Some html ->
  exists rest,
    trace (snd (post_handler env dflt (Some body) st)) =
    trace st ++ [EvGetPDFOptions (nullish (b_pdf_option body) dflt)] ++ rest.
Proof.
  intros Hhtml.
  remember (post_handler env dflt (Some body) st) as run eqn:Hrun.
  unfold post_handler in Hrun. rewrite Hhtml in Hrun.
  unfold bind at 1 in Hrun. rewrite getPDFOptions_run in Hrun.
  destruct (preset_of env (nullish (b_pdf_option body) dflt)) as [e|l].
  { subst run. exists []. reflexivity. }
  set (st1 := log [EvGetPDFOptions (nullish (b_pdf_option body) dflt)] st) in *.
  assert (T1 : trace st1 = trace st ++ [EvGetPDFOptions (nullish (b_pdf_option body) dflt)])
    by reflexivity.
  clearbody st1.
  unfold bind at 1 in Hrun.
  destruct (apply_literal_effect l (b_header body) Puppeteer.set_headerTemplate st1
              same_layout_header) as (T2 & _).
  destruct (apply_literal l (b_header body) Puppeteer.set_headerTemplate st1)
    as [[e|[]] st2]; cbn [snd] in *.
  { subst run. exists []. cbn [snd]. rewrite T2, T1. reflexivity. }
  unfold bind at 1 in Hrun.
  destruct (apply_literal_effect l (b_footer body) Puppeteer.set_footerTemplate st2
              same_layout_footer) as (T3 & _).
  destruct (apply_literal l (b_footer body) Puppeteer.set_footerTemplate st2)
    as [[e|[]] st3]; cbn [snd] in *.
  { subst run. exists []. cbn [snd]. rewrite T3, T2, T1. reflexivity. }
  subst run. unfold try_catch, runOnPage. unfold bind at 1. unfold bind at 1.
  unfold emit. cbv beta iota. rewrite post_job_run.
  destruct (set_content env html) as [e|[]].
  - eexists [_; _]. unfold ret. cbn [snd log trace].
    rewrite T3, T2, T1, <- !app_assoc. reflexivity.
  - cbv zeta.
    destruct (render env (Puppeteer.FromHtml html)
                (default Puppeteer.empty (heap (log [EvRunOnPage] st3) !! l)));
      eexists [_; _; _]; unfold ret; cbn [snd log trace];
      rewrite T3, T2, T1, <- !app_assoc; reflexivity.
Qed.

(** X11: only an absent [pdf_option] is replaced by the default name.  A
    [pdf_option] that is present, be it the empty string, is the name given
    to [getPDFOptions], by GET (once the navigation succeeded) as by POST
    (once the request passed validation). *)
Theorem pdf_option_names_the_preset env dflt st url html header footer :
  url <> "" -> html <> "" -> navigate env url = inr tt ->
  (forall name,
      (exists rest,
          trace (snd (get_handler env dflt
                        (mkGetQuerystring (Some url) (Some name) header footer) st)) =
          trace st ++ [EvRunOnPage; EvGoto url; EvGetPDFOptions name] ++ rest) /\
      (exists rest,
          trace (snd (post_handler env dflt
                        (Some (mkPostBody (Some html) (Some name) header footer)) st)) =
          trace st ++ [EvGetPDFOptions name] ++ rest)) /\
  (exists rest,
      trace (snd (get_handler env dflt
                    (mkGetQuerystring (Some url) None header footer) st)) =
      trace st ++ [EvRunOnPage; EvGoto url; EvGetPDFOptions dflt] ++ rest) /\
  (exists rest,
      trace (snd (post_handler env dflt
                    (Some (mkPostBody (Some html) None header footer)) st)) =
      trace st ++ [EvGetPDFOptions dflt] ++ rest).
Proof.
  intros Hurl Hhtml Hnav.
  assert (Hget : forall po,
             exists rest,
               trace (snd (get_handler env dflt
                             (mkGetQuerystring (Some url) po header footer) st)) =
               trace st ++ [EvRunOnPage; EvGoto url; EvGetPDFOptions (nullish po dflt)] ++
               rest).
  { intros po.
    rewrite (get_handler_run env dflt (mkGetQuerystring (Some url) po header footer)
               url st (truthy_nonempty url Hurl)).
    cbn [snd].
    destruct (get_job_resolves env url (nullish po dflt)
                (mkGetQuerystring (Some url) po header footer)
                (log [EvRunOnPage] st) Hnav) as (rest & Htrace).
    exists rest. cbn [q_pdf_option]. rewrite Htrace. cbn [log trace].
    rewrite <- app_assoc. reflexivity. }
  assert (Hpost : forall po,
             exists rest,
               trace (snd (post_handler env dflt
                             (Some (mkPostBody (Some html) po header footer)) st)) =
               trace st ++ [EvGetPDFOptions (nullish po dflt)] ++ rest).
  { intros po.
    apply (post_handler_resolves env dflt (mkPostBody (Some html) po header footer) html st).
    apply truthy_nonempty, Hhtml. }
  split; [|split].
  - intros name. split; [apply (Hget (Some name)) | apply (Hpost (Some name))].
  - apply (Hget None).
  - apply (Hpost None).
Qed.

Lemma pdf_option_names_the_preset_witness :
  (exists rest,
      trace (snd (get_handler Scenario.env "DEFAULT"
                    (mkGetQuerystring (Some Sample.site) (Some "") None None)
                    Sample.start)) =
      trace Sample.start ++ [EvRunOnPage; EvGoto Sample.site; EvGetPDFOptions ""] ++ rest) /\
  (exists rest,
      trace (snd (post_handler Scenario.env "DEFAULT"
                    (Some (mkPostBody (Some "<p>hi</p>") (Some "") None None))
                    Sample.start)) =
      trace Sample.start ++ [EvGetPDFOptions ""] ++ rest).
Proof.
  apply (proj1 (pdf_option_names_the_preset Scenario.env "DEFAULT" Sample.start
                  Sample.site "<p>hi</p>" None None
                  ltac:(discriminate) ltac:(discriminate) eq_refl) "").
Defined.

(** X12: a by-URL request without header and footer writes nothing: the
    page is asked to render with the fields the resolved object has at that
    moment and the heap stays as it was.  This holds also when the preset
    resolves to [undefined], where [page.pdf] gets no options; with a header
    the same request ends in a 500, because the handler assigns to a field
    of [undefined]. *)
Theorem plain_get_reads_the_preset env dflt query url l st :
  truthy (q_url query) = Some url ->
  let name := nullish (q_pdf_option query) dflt in
  navigate env url = inr tt ->
  preset_of env name = inr l ->
  truthy (q_footer query) = None ->
  (truthy (q_header query) = None ->
   let o := default Puppeteer.empty (heap st !! l) in
   get_handler env dflt query st =
   (inr match render env (Puppeteer.FromUrl url) o with
        | inr buffer => pdf_reply buffer
        | inl e => get_error_reply e url
        end,
    log [EvRunOnPage; EvGoto url; EvGetPDFOptions name; EvPdf (Puppeteer.FromUrl url) o]
      st)) /\
  (forall h,
      truthy (q_header query) = Some h -> heap st !! l = None ->
      get_handler env dflt query st =
      (inr (get_error_reply (JsError "TypeError: Cannot set properties of undefined") url),
       log [EvRunOnPage; EvGoto url; EvGetPDFOptions name] st)).
Proof.
  intros Hurl name Hnav Hl Hf. split.
  - intros Hh. cbv zeta.
    rewrite (get_handler_run env dflt query url st Hurl).
    rewrite (get_job_run_ok env url _ query l _ Hnav Hl).
    unfold bind at 1 3. rewrite (apply_fragment_skip env l _ _ _ Hh).
    unfold bind at 1 2. rewrite (apply_fragment_skip env l _ _ _ Hf).
    rewrite !page_pdf_run. cbv zeta. cbn [fst snd log heap].
    destruct (render env (Puppeteer.FromUrl url) (default Puppeteer.empty (heap st !! l)));
      f_equal; unfold log; cbn [heap trace]; rewrite <- ?app_assoc; reflexivity.
  - intros h Hh Hnone.
    rewrite (get_handler_run env dflt query url st Hurl).
    rewrite (get_job_run_ok env url _ query l _ Hnav Hl).
    unfold bind at 1 3.
    rewrite (apply_fragment_undefined env l _ h _ _ Hh) by exact Hnone.
    cbn [fst snd]. rewrite log_log. reflexivity.
Qed.

Lemma plain_get_reads_the_preset_witness :
  get_handler Scenario.env "DEFAULT"
    (mkGetQuerystring (Some Sample.site) (Some "ghost") None None) Sample.start =
    (inr (pdf_reply Sample.pdf_bytes),
     log [EvRunOnPage; EvGoto Sample.site; EvGetPDFOptions "ghost";
          EvPdf (Puppeteer.FromUrl Sample.site) Puppeteer.empty] Sample.start) /\
  get_handler Scenario.env "DEFAULT"
    (mkGetQuerystring (Some Sample.site) (Some "ghost") (Some Sample.no_image) None)
    Sample.start =
    (inr (get_error_reply (JsError "TypeError: Cannot set properties of undefined")
            Sample.site),
     log [EvRunOnPage; EvGoto Sample.site; EvGetPDFOptions "ghost"] Sample.start).
Proof.
  split.
  - apply (proj1 (plain_get_reads_the_preset Scenario.env "DEFAULT"
                    (mkGetQuerystring (Some Sample.site) (Some "ghost") None None)
                    Sample.site 99 Sample.start eq_refl eq_refl eq_refl eq_refl)).
    reflexivity.
  - apply (proj2 (plain_get_reads_the_preset Scenario.env "DEFAULT"
                    (mkGetQuerystring (Some Sample.site) (Some "ghost")
                       (Some Sample.no_image) None)
                    Sample.site 99 Sample.start eq_refl eq_refl eq_refl eq_refl)
             Sample.no_image);
      reflexivity.
Defined.

(** ** More on the by-HTML handler *)

(** X13: the POST handler resolves the preset and writes the templates
    outside its [try]: an error of [getPDFOptions], or the [TypeError] of
    assigning a header or footer to an [undefined] preset, leaves the handler
    uncaught.  No reply has been sent, the page pool has not been called and
    nothing has been written. *)
Theorem post_errors_before_try_escape env dflt body html st :
  truthy (Some (nullish (b_html body) "")) = Some html ->
  let name := nullish (b_pdf_option body) dflt in
  (forall e,
      preset_of env name = inl e ->
      post_handler env dflt (Some body) st = (inl e, log [EvGetPDFOptions name] st)) /\
  (forall l,
      preset_of env name = inr l -> heap st !! l = None ->
      truthy (b_header body) <> None \/ truthy (b_footer body) <> None ->
      post_handler env dflt (Some body) st =
      (inl (JsError "TypeError: Cannot set properties of undefined"),
       log [EvGetPDFOptions name] st)).
Proof.
  intros Hhtml name. split.
  - intros e Hl. unfold post_handler. rewrite Hhtml.
    unfold bind at 1. rewrite getPDFOptions_run. fold name. rewrite Hl. reflexivity.
  - intros l Hl Hnone Hsome. unfold post_handler. rewrite Hhtml.
    unfold bind at 1. rewrite getPDFOptions_run. fold name. rewrite Hl.
    unfold bind at 1.
    destruct (truthy (b_header body)) as [h|] eqn:Hh.
    + rewrite (apply_literal_undefined l _ h _ _ Hh) by exact Hnone. reflexivity.
    + rewrite (apply_literal_skip l _ _ _ Hh).
      unfold bind at 1.
      destruct (truthy (b_footer body)) as [f|] eqn:Hf.
      * rewrite (apply_literal_undefined l _ f _ _ Hf) by exact Hnone. reflexivity.
      * destruct Hsome as [H|H]; contradiction.
Qed.

Lemma post_errors_before_try_escape_witness :
  post_handler Scenario.env "DEFAULT"
    (Some (mkPostBody (Some "<p>hi</p>") (Some "missing") None None)) Sample.start =
    (inl (JsError "unknown preset"), log [EvGetPDFOptions "missing"] Sample.start) /\
  post_handler Scenario.env "DEFAULT"
    (Some (mkPostBody (Some "<p>hi</p>") (Some "ghost") None (Some "<i>F</i>")))
    Sample.start =
    (inl (JsError "TypeError: Cannot set properties of undefined"),
     log [EvGetPDFOptions "ghost"] Sample.start).
Proof.
  split.
  - apply (proj1 (post_errors_before_try_escape Scenario.env "DEFAULT"
                    (mkPostBody (Some "<p>hi</p>") (Some "missing") None None)
                    "<p>hi</p>" Sample.start eq_refl)).
    reflexivity.
  - apply (proj2 (post_errors_before_try_escape Scenario.env "DEFAULT"
                    (mkPostBody (Some "<p>hi</p>") (Some "ghost") None (Some "<i>F</i>"))
                    "<p>hi</p>" Sample.start eq_refl) 99);
      [reflexivity | reflexivity | right; discriminate].
Defined.

(** X14: when the job of a by-HTML request fails, the reply is a 500 whose
    JSON body has the error and nothing else (no [url] field).  If
    [page.setContent] fails, [page.pdf] is not called.  In both cases the
    templates of the request stay written in the resolved record. *)
Theorem post_job_failure env dflt body html l o e st :
  truthy (Some (nullish (b_html body) "")) = Some html ->
  let name := nullish (b_pdf_option body) dflt in
  preset_of env name = inr l ->
  heap st !! l = Some o ->
  let o' := overlay (b_footer body) Puppeteer.set_footerTemplate
              (overlay (b_header body) Puppeteer.set_headerTemplate o) in
  (set_content env html = inl e ->
   post_handler env dflt (Some body) st =
   (inr (mkReply 500 [] (Some (SendJson (JObject [("error", JError e)])))),
    log [EvGetPDFOptions name; EvRunOnPage; EvSetContent html] (store l o' st))) /\
  (set_content env html = inr tt ->
   render env (Puppeteer.FromHtml html) o' = inl e ->
   post_handler env dflt (Some body) st =
   (inr (mkReply 500 [] (Some (SendJson (JObject [("error", JError e)])))),
    log [EvGetPDFOptions name; EvRunOnPage; EvSetContent html;
         EvPdf (Puppeteer.FromHtml html) o'] (store l o' st))).
Proof.
  intros Hhtml name Hl Ho o'. split.
  - intros Hset. rewrite (post_handler_run env dflt body html l o st Hhtml Hl Ho).
    cbv zeta. rewrite Hset. reflexivity.
  - intros Hset Hrender. rewrite (post_handler_run env dflt body html l o st Hhtml Hl Ho).
    cbv zeta. rewrite Hset. fold o'. rewrite Hrender.
    f_equal. unfold log, store. cbn [heap trace]. rewrite <- app_assoc. reflexivity.
Qed.

Lemma post_job_failure_witness :
  post_handler Scenario.env "DEFAULT"
    (Some (mkPostBody (Some "<crash>") None (Some Sample.no_image) None)) Sample.start =
  (inr (mkReply 500 [] (Some (SendJson (JObject [("error", JError (JsError "Target closed"))])))),
   log [EvGetPDFOptions "DEFAULT"; EvRunOnPage; EvSetContent "<crash>"]
     (store 0 (Puppeteer.set_headerTemplate Sample.no_image
                 (Puppeteer.set_displayHeaderFooter true Scenario.default_preset))
        Sample.start)).
Proof.
  apply (proj1 (post_job_failure Scenario.env "DEFAULT"
                  (mkPostBody (Some "<crash>") None (Some Sample.no_image) None)
                  "<crash>" 0 Scenario.default_preset (JsError "Target closed")
                  Sample.start eq_refl eq_refl eq_refl)).
  reflexivity.
Defined.

(** X15: the handlers never clear a template.  When a by-HTML request with
    a header is followed by a by-HTML request without header and footer that
    resolves to the same object, the second render gets the header of the
    first request, with [displayHeaderFooter] true. *)
Theorem header_outlives_its_request env dflt first second html1 html2 l o h st :
  truthy (Some (nullish (b_html first) "")) = Some html1 ->
  truthy (Some (nullish (b_html second) "")) = Some html2 ->
  preset_of env (nullish (b_pdf_option first) dflt) = inr l ->
  preset_of env (nullish (b_pdf_option second) dflt) = inr l ->
  heap st !! l = Some o ->
  truthy (b_header first) = Some h ->
  truthy (b_header second) = None -> truthy (b_footer second) = None ->
  set_content env html2 = inr tt ->
  let st1 := snd (post_handler env dflt (Some first) st) in
  exists calls o2,
    trace (snd (post_handler env dflt (Some second) st1)) =
      trace st1 ++ calls ++ [EvPdf (Puppeteer.FromHtml html2) o2] /\
    Puppeteer.headerTemplate o2 = Some h /\
    Puppeteer.displayHeaderFooter o2 = Some true.
Proof.
  intros Hhtml1 Hhtml2 Hl1 Hl2 Ho Hh Hh2 Hf2 Hset st1.
  set (o1 := overlay (b_footer first) Puppeteer.set_footerTemplate
               (overlay (b_header first) Puppeteer.set_headerTemplate o)).
  assert (Ho1 : heap st1 !! l = Some o1).
  { subst st1. rewrite (post_handler_run env dflt first html1 l o st Hhtml1 Hl1 Ho).
    cbv zeta. destruct (set_content env html1) as [e|[]];
      cbn [snd log store heap]; apply lookup_insert_eq. }
  rewrite (post_handler_run env dflt second html2 l o1 st1 Hhtml2 Hl2 Ho1).
  cbv zeta. rewrite Hset.
  assert (Hid : overlay (b_footer second) Puppeteer.set_footerTemplate
                  (overlay (b_header second) Puppeteer.set_headerTemplate o1) = o1)
    by (unfold overlay; rewrite Hh2, Hf2; reflexivity).
  rewrite Hid.
  exists [EvGetPDFOptions (nullish (b_pdf_option second) dflt); EvRunOnPage;
          EvSetContent html2], o1.
  split; [|split].
  - cbn [snd log store trace]. rewrite <- app_assoc. reflexivity.
  - subst o1. unfold overlay. rewrite Hh.
    destruct (truthy (b_footer first)); reflexivity.
  - subst o1. unfold overlay. rewrite Hh.
    destruct (truthy (b_footer first)); reflexivity.
Qed.

Lemma header_outlives_its_request_witness :
  let st1 := snd (post_handler Scenario.env "DEFAULT" (Some Sample.by_html_with_header)
                    Sample.start) in
  exists calls o2,
    trace (snd (post_handler Scenario.env "DEFAULT"
                  (Some (mkPostBody (Some "<p>next</p>") (Some "DEFAULT") None None)) st1)) =
      trace st1 ++ calls ++ [EvPdf (Puppeteer.FromHtml "<p>next</p>") o2] /\
    Puppeteer.headerTemplate o2 = Some Sample.no_image /\
    Puppeteer.displayHeaderFooter o2 = Some true.
Proof.
  apply (header_outlives_its_request Scenario.env "DEFAULT" Sample.by_html_with_header
           (mkPostBody (Some "<p>next</p>") (Some "DEFAULT") None None)
           "<p>hi</p>" "<p>next</p>" 0 Scenario.default_preset Sample.no_image
           Sample.start);
    reflexivity.
Defined.

(** ** [getImageBase64] and the inlining, whatever the fragment *)

Lemma base64_encode_injective bs bs' :
  Base64.encode bs = Base64.encode bs' -> bs = bs'.
Proof.
  intros H. apply (f_equal Base64.decode) in H.
  rewrite !base64_roundtrip in H. injection H as ->. reflexivity.
Qed.

(** X16: [getImageBase64] makes one call to axios and touches nothing
    else.  When the call returns a body, the text it gives decodes, as
    base64, to exactly that body; so two bodies that differ never give the
    same text. *)
Theorem getImageBase64_round_trip env url st :
  snd (getImageBase64 env url st) = log [EvAxiosGet url] st /\
  (forall data,
      http_get env url = inr data ->
      exists text,
        fst (getImageBase64 env url st) = inr text /\ Base64.decode text = Some data) /\
  (forall url' st' data data',
      http_get env url = inr data -> http_get env url' = inr data' ->
      fst (getImageBase64 env url st) = fst (getImageBase64 env url' st') ->
      data = data').
Proof.
  split; [|split].
  - rewrite getImageBase64_run. reflexivity.
  - intros data Hdata. exists (Base64.encode data).
    rewrite getImageBase64_run, Hdata. split; [reflexivity | apply base64_roundtrip].
  - intros url' st' data data' Hdata Hdata'.
    rewrite !getImageBase64_run, Hdata, Hdata'. cbn [fst].
    intros [= H]. apply base64_encode_injective, H.
Qed.

Lemma getImageBase64_round_trip_witness :
  exists text,
    fst (getImageBase64 Sample.env Sample.logo_url Sample.start) = inr text /\
    Base64.decode text = Some Sample.logo_bytes.
Proof.
  apply (proj1 (proj2 (getImageBase64_round_trip Sample.env Sample.logo_url Sample.start))).
  reflexivity.
Defined.


Lemma encode_sextet_in_alphabet n : in_base64_alphabet (Base64.encode_sextet n).
Proof.
  unfold in_base64_alphabet, Base64.encode_sextet.
  destruct (nth_in_or_default (N.to_nat n) (list_ascii_of_string Base64.alphabet)
              Base64.pad) as [Hin|Hpad]; [right; exact Hin | left; exact Hpad].
Qed.

(** X17: the text that [getImageBase64] builds from a body of [n] bytes has
    [4 * ceil (n / 3)] characters, each a character of the base64 alphabet or
    the padding character. *)
Theorem base64_text_shape (bs : list byte) :
  String.length (Base64.encode bs) = 4 * ((length bs + 2) / 3) /\
  Forall in_base64_alphabet (list_ascii_of_string (Base64.encode bs)).
Proof.
  induction bs as [|a|a b|a b c l [IHlen IHchars]] using list_ind3.
  - split; [reflexivity | constructor].
  - split; [reflexivity|].
    cbn [Base64.encode list_ascii_of_string].
    repeat (apply List.Forall_cons;
            [first [apply encode_sextet_in_alphabet | left; reflexivity]|]).
    apply List.Forall_nil.
  - split; [reflexivity|].
    cbn [Base64.encode list_ascii_of_string].
    repeat (apply List.Forall_cons;
            [first [apply encode_sextet_in_alphabet | left; reflexivity]|]).
    apply List.Forall_nil.
  - split.
    + cbn [Base64.encode String.length length]. rewrite IHlen.
      replace (S (S (S (length l))) + 2) with (length l + 2 + 1 * 3) by lia.
      rewrite Nat.div_add by discriminate. lia.
    + cbn [Base64.encode list_ascii_of_string].
      repeat (apply List.Forall_cons; [apply encode_sextet_in_alphabet|]). exact IHchars.
Qed.

(** X18: inlining a fragment never writes to the heap and calls axios at
    most once, for the [src] of the first image element.  It fails only when
    that call fails, and then with the error of the call. *)
Theorem inlining_fetches_at_most_once env fragment st :
  heap (snd (inline_images env fragment st)) = heap st /\
  (trace (snd (inline_images env fragment st)) = trace st \/
   exists first others url,
     Cheerio.select_img (dom_of env fragment) = first :: others /\
     Cheerio.getAttr "src" first = Some url /\
     trace (snd (inline_images env fragment st)) = trace st ++ [EvAxiosGet url]) /\
  (forall e,
      fst (inline_images env fragment st) = inl e ->
      exists url, image_url env fragment = Some url /\ http_get env url = inl e).
Proof.
  rewrite inline_images_run.
  destruct (image_url env fragment) as [url|] eqn:Hurl.
  - split; [reflexivity|]. split.
    + right. unfold image_url in Hurl.
      destruct (Cheerio.select_img (dom_of env fragment)) as [|first others] eqn:Himg;
        [discriminate|].
      exists first, others, url. repeat split. exact Hurl.
    + intros e He. exists url. split; [reflexivity|].
      destruct (http_get env url); [injection He as ->; reflexivity | discriminate].
  - split; [reflexivity|]. split; [left; reflexivity|]. intros e He. discriminate.
Qed.

Lemma inlining_fetches_at_most_once_witness :
  exists url,
    image_url Scenario.env Scenario.image_unreachable = Some url /\
    http_get Scenario.env url = inl (JsError "connect ECONNREFUSED").
Proof.
  apply (proj2 (proj2 (inlining_fetches_at_most_once Scenario.env
                         Scenario.image_unreachable Sample.start))).
  reflexivity.
Defined.


Lemma setAttr_setAttr name v w attribs :
  Cheerio.setAttr name v (Cheerio.setAttr name w attribs) = Cheerio.setAttr name v attribs.
Proof.
  induction attribs as [|[k x] rest IH]; cbn.
  - rewrite String.eqb_refl. reflexivity.
  - destruct (String.eqb k name) eqn:E; cbn; rewrite E; [reflexivity|].
    rewrite IH. reflexivity.
Qed.

Lemma getAttr_setAttr_other name v k attribs :
  k <> name ->
  Cheerio.getAttr k (Cheerio.setAttr name v attribs) = Cheerio.getAttr k attribs.
Proof.
  intros Hne. induction attribs as [|[k' x] rest IH]; cbn.
  - destruct (String.eqb_spec name k); [congruence | reflexivity].
  - destruct (String.eqb_spec k' name) as [->|Hk']; cbn.
    + destruct (String.eqb_spec name k); [congruence | reflexivity].
    + destruct (String.eqb k' k); [reflexivity | exact IH].
Qed.

Lemma img_attr_set_twice name v w (d : Cheerio.Dom) :
  Cheerio.img_attr_set name v (Cheerio.img_attr_set name w d) =
  Cheerio.img_attr_set name v d.
Proof.
  assert (Hnode : forall m,
             Cheerio.img_attr_set_node name v (Cheerio.img_attr_set_node name w m) =
             Cheerio.img_attr_set_node name v m).
  { induction m as [tag attribs children IH|data] using Node_forall_ind; [|reflexivity].
    rewrite !img_attr_set_node_element. f_equal.
    - destruct (String.eqb tag "img"); [apply setAttr_setAttr | reflexivity].
    - unfold Cheerio.img_attr_set. rewrite map_map.
      induction IH as [|c cs Hc _ IHcs]; [reflexivity|].
      cbn [map]. rewrite Hc, IHcs. reflexivity. }
  unfold Cheerio.img_attr_set. rewrite map_map.
  induction d as [|m ms IH]; [reflexivity|].
  cbn [map]. rewrite Hnode, IH. reflexivity.
Qed.

(** X19: what inlining returns is the serialization of a document that
    differs from the parsed fragment in the [src] of its image elements and
    in nothing else: writing one and the same [src] on all images makes the
    two documents equal, and every other attribute of every image is as it
    was. *)
Theorem inlining_changes_src_only env fragment template :
  inline_result env fragment = inr template ->
  exists dom',
    template = html_of env dom' /\
    (forall v, Cheerio.img_attr_set "src" v dom' =
               Cheerio.img_attr_set "src" v (dom_of env fragment)) /\
    (forall k, k <> "src" ->
       map (Cheerio.getAttr k) (Cheerio.select_img dom') =
       map (Cheerio.getAttr k) (Cheerio.select_img (dom_of env fragment))).
Proof.
  unfold inline_result.
  destruct (image_url env fragment) as [url|].
  - destruct (http_get env url) as [e|data]; [discriminate|].
    intros [= <-]. eexists. split; [reflexivity|]. split.
    + intros v. apply img_attr_set_twice.
    + intros k Hk. rewrite select_img_attr_set, map_map.
      apply map_ext. intros attribs. apply getAttr_setAttr_other, Hk.
  - intros [= <-]. exists (dom_of env fragment). repeat split.
Qed.

Lemma inlining_changes_src_only_witness :
  exists dom',
    "<img src='data:image/png;base64,iVBORw==' alt='seal'></img>" = Sample.html dom' /\
    (forall v, Cheerio.img_attr_set "src" v dom' =
               Cheerio.img_attr_set "src" v
                 [Cheerio.Element "img" [("src", Sample.logo_url); ("alt", "seal")] []]) /\
    (forall k, k <> "src" ->
       map (Cheerio.getAttr k) (Cheerio.select_img dom') =
       map (Cheerio.getAttr k)
         (Cheerio.select_img
            [Cheerio.Element "img" [("src", Sample.logo_url); ("alt", "seal")] []])).
Proof.
  apply (inlining_changes_src_only
           (mkEnv (fun _ => [Cheerio.Element "img"
                               [("src", Sample.logo_url); ("alt", "seal")] []])
              Sample.html Sample.get Sample.goto (fun _ => inr tt)
              (fun _ _ => inr Sample.pdf_bytes) (fun _ => inr 0))
           "<img src='http://cdn.test/logo.png' alt='seal'>").
  reflexivity.
Defined.

(** ** The preset table *)

(** X20: whatever the three constants are, the table has nine presets with
    nine different names, and every preset fixes a format and the four
    margins, prints backgrounds and carries no header or footer template;
    only A4headerfooter switches header and footer on. *)
Theorem presets_are_well_formed F L M :
  length (PresetPDFOptions F L M) = 9 /\
  NoDup (map fst (PresetPDFOptions F L M)) /\
  Forall (fun entry =>
            is_Some (Puppeteer.format (snd entry)) /\
            is_Some (Puppeteer.margin (snd entry)) /\
            Puppeteer.printBackground (snd entry) = Some true /\
            Puppeteer.headerTemplate (snd entry) = None /\
            Puppeteer.footerTemplate (snd entry) = None /\
            Puppeteer.displayHeaderFooter (snd entry) =
              (if String.eqb (fst entry) "A4headerfooter" then Some true else None))
    (PresetPDFOptions F L M).
Proof.
  split; [reflexivity|]. split.
  - cbn [PresetPDFOptions map fst].
    apply (bool_decide_unpack _). vm_compute. exact I.
  - unfold PresetPDFOptions.
    repeat (apply List.Forall_cons; [cbn; repeat split; eexists; reflexivity|]).
    apply List.Forall_nil.
Qed.

(** X21: the three constants reach the table in two places only.  The
    presets DEFAULT, A4, A3, A4L and A3L take all four margins from
    [DEFAULT_PDF_OPTION_MARGIN], and DEFAULT takes its format and its
    orientation from the other two constants; the presets nomargin,
    bottommargin, landscape and A4headerfooter are the same under every
    configuration. *)
Theorem constants_reach_five_presets F L M name o :
  In (name, o) (PresetPDFOptions F L M) ->
  (In name ["DEFAULT"; "A4"; "A3"; "A4L"; "A3L"] ->
   Puppeteer.margin o = Some (Puppeteer.mkPDFMargin M M M M)) /\
  (name = "DEFAULT" ->
   Puppeteer.format o = Some F /\ Puppeteer.landscape o = Some L) /\
  (In name ["nomargin"; "bottommargin"; "landscape"; "A4headerfooter"] ->
   forall F' L' M', In (name, o) (PresetPDFOptions F' L' M')).
Proof.
  unfold PresetPDFOptions. cbn [In].
  intros Hin.
  repeat destruct Hin as [Hin|Hin]; try contradiction; injection Hin as <- <-;
    (split; [|split]);
    try (intros H; cbn [In] in H; repeat destruct H as [H|H];
         try discriminate; try contradiction);
    try reflexivity; try (split; reflexivity);
    try (intros F' L' M'; cbn [In]; tauto).
Qed.

Lemma constants_reach_five_presets_witness :
  Puppeteer.margin
    (Puppeteer.mkPDFOptions (Some "a3") (Some true) (Some (defaultMargin "7mm"))
       (Some true) None None None) =
  Some (Puppeteer.mkPDFMargin "7mm" "7mm" "7mm" "7mm").
Proof.
  apply (proj1 (constants_reach_five_presets "Letter" true "7mm" "A3L"
                  (Puppeteer.mkPDFOptions (Some "a3") (Some true)
                     (Some (defaultMargin "7mm")) (Some true) None None None)
                  ltac:(cbn; tauto))).
  cbn. tauto.
Defined.

(** ** Every run of the by-HTML handler *)

(** X22: the runs of the POST handler, all of them.  A request that fails
    validation gets a 400 and nothing is called.  Otherwise the preset is
    resolved first; an error before the [try] leaves the handler with only
    that one call made; else the page pool is called and the content is set,
    and the reply is the 500 with the error, or, after [page.pdf] was
    called, the 500 with the error or the PDF.  The handler never fetches
    an image and never navigates. *)
Theorem post_handler_outcomes env dflt request_body st :
  (exists reply,
      post_handler env dflt request_body st = (inr reply, st) /\ statusCode reply = 400) \/
  (exists body html,
      request_body = Some body /\
      truthy (Some (nullish (b_html body) "")) = Some html /\
      let name := nullish (b_pdf_option body) dflt in
      let run := post_handler env dflt request_body st in
      (exists e, fst run = inl e /\ trace (snd run) = trace st ++ [EvGetPDFOptions name]) \/
      (exists e,
          fst run = inr (post_error_reply e) /\
          trace (snd run) =
            trace st ++ [EvGetPDFOptions name; EvRunOnPage; EvSetContent html]) \/
      (exists o,
          ((exists e, fst run = inr (post_error_reply e)) \/
           (exists buffer, fst run = inr (pdf_reply buffer))) /\
          trace (snd run) =
            trace st ++ [EvGetPDFOptions name; EvRunOnPage; EvSetContent html;
                         EvPdf (Puppeteer.FromHtml html) o])).
Proof.
  destruct request_body as [body|]; [|left; eexists; split; reflexivity].
  destruct (truthy (Some (nullish (b_html body) ""))) as [html|] eqn:Hhtml.
  2:{ left. unfold post_handler. rewrite Hhtml. eexists. split; reflexivity. }
  right. exists body, html. split; [reflexivity|]. split; [exact Hhtml|]. cbv zeta.
  remember (post_handler env dflt (Some body) st) as run eqn:Hrun.
  unfold post_handler in Hrun. rewrite Hhtml in Hrun.
  unfold bind at 1 in Hrun. rewrite getPDFOptions_run in Hrun.
  destruct (preset_of env (nullish (b_pdf_option body) dflt)) as [e|l].
  { subst run. left. exists e. split; reflexivity. }
  set (st1 := log [EvGetPDFOptions (nullish (b_pdf_option body) dflt)] st) in *.
  assert (T1 : trace st1 = trace st ++ [EvGetPDFOptions (nullish (b_pdf_option body) dflt)])
    by reflexivity.
  clearbody st1.
  unfold bind at 1 in Hrun.
  destruct (apply_literal_effect l (b_header body) Puppeteer.set_headerTemplate st1
              same_layout_header) as (T2 & _).
  destruct (apply_literal l (b_header body) Puppeteer.set_headerTemplate st1)
    as [[e|[]] st2]; cbn [snd] in *.
  { subst run. left. exists e. cbn [fst snd]. rewrite T2, T1. split; reflexivity. }
  unfold bind at 1 in Hrun.
  destruct (apply_literal_effect l (b_footer body) Puppeteer.set_footerTemplate st2
              same_layout_footer) as (T3 & _).
  destruct (apply_literal l (b_footer body) Puppeteer.set_footerTemplate st2)
    as [[e|[]] st3]; cbn [snd] in *.
  { subst run. left. exists e. cbn [fst snd]. rewrite T3, T2, T1. split; reflexivity. }
  right. unfold try_catch, runOnPage in Hrun.
  unfold bind at 1 in Hrun. unfold bind at 1 in Hrun.
  unfold emit in Hrun. cbv beta iota in Hrun. rewrite post_job_run in Hrun.
  destruct (set_content env html) as [e|[]].
  - left. exists e. subst run. unfold ret. cbn [fst snd log trace].
    rewrite T3, T2, T1, <- !app_assoc. split; reflexivity.
  - right. cbv zeta in Hrun.
    exists (default Puppeteer.empty (heap (log [EvRunOnPage] st3) !! l)).
    destruct (render env (Puppeteer.FromHtml html)
                (default Puppeteer.empty (heap (log [EvRunOnPage] st3) !! l)))
      as [e|buffer]; subst run; unfold ret; cbn [fst snd log trace];
      rewrite T3, T2, T1, <- !app_assoc; (split; [|reflexivity]);
      [left; exists e | right; exists buffer]; reflexivity.
Qed.

(** * The by-URL job in full, and the registry *)

(** ** Every run of the job of a by-URL request *)

(** The job on an object that exists: the header block, then the footer
    block, then the render, up to the first error. *)
Lemma get_job_defined env url name query l o st :
  navigate env url = inr tt ->
  preset_of env name = inr l ->
  heap st !! l = Some o ->
  get_job env url name query st =
  let st0 := log [EvGoto url; EvGetPDFOptions name] st in
  let hcalls := fragment_calls env (q_header query) in
  let fcalls := fragment_calls env (q_footer query) in
  match after_fragment env (q_header query) Puppeteer.set_headerTemplate o with
  | inl e => (inl e, log hcalls (store l (Puppeteer.set_displayHeaderFooter true o) st0))
  | inr o1 =>
      match after_fragment env (q_footer query) Puppeteer.set_footerTemplate o1 with
      | inl e =>
          (inl e,
           log (hcalls ++ fcalls) (store l (Puppeteer.set_displayHeaderFooter true o1) st0))
      | inr o2 =>
          (render env (Puppeteer.FromUrl url) o2,
           log (hcalls ++ fcalls ++ [EvPdf (Puppeteer.FromUrl url) o2]) (store l o2 st0))
      end
  end.
Proof.
  intros Hnav Hl Ho. rewrite (get_job_run_ok env url name query l st Hnav Hl).
  cbv zeta. set (st0 := log [EvGoto url; EvGetPDFOptions name] st).
  assert (Ho0 : heap st0 !! l = Some o) by exact Ho.
  assert (Hstep : forall fragment set_template o' st',
             heap st' !! l = Some o' ->
             apply_fragment env l fragment set_template st' =
             match after_fragment env fragment set_template o' with
             | inr o'' => (inr tt, log (fragment_calls env fragment) (store l o'' st'))
             | inl e =>
                 (inl e, log (fragment_calls env fragment)
                           (store l (Puppeteer.set_displayHeaderFooter true o') st'))
             end).
  { intros fragment set_template o' st' Ho'. unfold after_fragment, fragment_calls.
    destruct (truthy fragment) as [f|] eqn:Hf.
    - rewrite (apply_fragment_result env l fragment f set_template o' st' Hf Ho').
      cbv zeta. destruct (inline_result env f); reflexivity.
    - rewrite (apply_fragment_skip env l fragment set_template st' Hf).
      rewrite log_nil, (store_same l o' st' Ho'). reflexivity. }
  unfold bind at 1. rewrite (Hstep _ _ o st0 Ho0).
  destruct (after_fragment env (q_header query) Puppeteer.set_headerTemplate o)
    as [e|o1]; [reflexivity|].
  unfold bind at 1.
  rewrite (Hstep _ _ o1 (log (fragment_calls env (q_header query)) (store l o1 st0)))
    by apply heap_store.
  destruct (after_fragment env (q_footer query) Puppeteer.set_footerTemplate o1)
    as [e|o2].
  - rewrite ?store_log, ?store_store, ?log_log. reflexivity.
  - rewrite page_pdf_run. cbv zeta.
    rewrite ?store_log, ?store_store, ?log_log. cbn [log heap].
    rewrite heap_store. change (default Puppeteer.empty (Some ?x)) with x.
    unfold log. cbn [heap trace]. rewrite <- ?app_assoc. reflexivity.
Qed.

(** The job when the preset resolves to [undefined]. *)
Lemma get_job_undefined env url name query l st :
  navigate env url = inr tt ->
  preset_of env name = inr l ->
  heap st !! l = None ->
  get_job env url name query st =
  match truthy (q_header query), truthy (q_footer query) with
  | None, None =>
      (render env (Puppeteer.FromUrl url) Puppeteer.empty,
       log [EvGoto url; EvGetPDFOptions name; EvPdf (Puppeteer.FromUrl url) Puppeteer.empty]
         st)
  | _, _ =>
      (inl (JsError "TypeError: Cannot set properties of undefined"),
       log [EvGoto url; EvGetPDFOptions name] st)
  end.
Proof.
  intros Hnav Hl Hnone. rewrite (get_job_run_ok env url name query l st Hnav Hl).
  assert (Hnone0 : heap (log [EvGoto url; EvGetPDFOptions name] st) !! l = None)
    by exact Hnone.
  unfold bind at 1.
  destruct (truthy (q_header query)) as [h|] eqn:Hh.
  { rewrite (apply_fragment_undefined env l _ h _ _ Hh Hnone0). reflexivity. }
  rewrite (apply_fragment_skip env l _ _ _ Hh).
  unfold bind at 1.
  destruct (truthy (q_footer query)) as [f|] eqn:Hf.
  { rewrite (apply_fragment_undefined env l _ f _ _ Hf Hnone0). reflexivity. }
  rewrite (apply_fragment_skip env l _ _ _ Hf), page_pdf_run. cbv zeta.
  cbn [log heap]. rewrite Hnone. cbn [default]. rewrite log_log. reflexivity.
Qed.







(** ** Failures of a by-URL request *)

Lemma pdf_reply_injective buffer buffer' :
  pdf_reply buffer = pdf_reply buffer' -> buffer = buffer'.
Proof. intros H. apply (f_equal sent) in H. cbn in H. congruence. Qed.

(** C5: every by-URL request is answered with the PDF reply or with the 500
    whose JSON body carries the error and the URL of the request, and with
    the PDF only when every step of the job succeeded.  Whatever step fails
    (the navigation, the resolution of the preset, an assignment to an
    [undefined] preset, the image fetch of the header, the image fetch of the
    footer, the render), with whatever header and footer the request has, the
    reply is that 500 with the very error of the step, so no PDF bytes are
    sent.  [getImageBase64] rethrows the error of the transport unchanged. *)
Theorem C5_failure_is_500_with_url env dflt query url st :
  truthy (q_url query) = Some url ->
  let name := nullish (q_pdf_option query) dflt in
  let reply := fst (get_handler env dflt query st) in
  let failed (e : Error) :=
    reply = inr (mkReply 500 []
                   (Some (SendJson (JObject [("error", JError e); ("url", JString url)])))) in
  ((exists e, failed e) \/ (exists buffer, reply = inr (pdf_reply buffer))) /\
  (forall buffer,
      reply = inr (pdf_reply buffer) ->
      navigate env url = inr tt /\
      exists l o1 o2,
        preset_of env name = inr l /\
        after_fragment env (q_header query) Puppeteer.set_headerTemplate
          (default Puppeteer.empty (heap st !! l)) = inr o1 /\
        after_fragment env (q_footer query) Puppeteer.set_footerTemplate o1 = inr o2 /\
        render env (Puppeteer.FromUrl url) o2 = inr buffer) /\
  (forall e, navigate env url = inl e -> failed e) /\
  (forall e, navigate env url = inr tt -> preset_of env name = inl e -> failed e) /\
  (forall l,
      navigate env url = inr tt -> preset_of env name = inr l -> heap st !! l = None ->
      truthy (q_header query) <> None \/ truthy (q_footer query) <> None ->
      failed (JsError "TypeError: Cannot set properties of undefined")) /\
  (forall e l o h u,
      navigate env url = inr tt -> preset_of env name = inr l -> heap st !! l = Some o ->
      truthy (q_header query) = Some h ->
      image_url env h = Some u -> http_get env u = inl e ->
      failed e) /\
  (forall e l o o1 f u,
      navigate env url = inr tt -> preset_of env name = inr l -> heap st !! l = Some o ->
      after_fragment env (q_header query) Puppeteer.set_headerTemplate o = inr o1 ->
      truthy (q_footer query) = Some f ->
      image_url env f = Some u -> http_get env u = inl e ->
      failed e) /\
  (forall e l o1 o2,
      navigate env url = inr tt -> preset_of env name = inr l ->
      (heap st !! l = None ->
       truthy (q_header query) = None /\ truthy (q_footer query) = None) ->
      after_fragment env (q_header query) Puppeteer.set_headerTemplate
        (default Puppeteer.empty (heap st !! l)) = inr o1 ->
      after_fragment env (q_footer query) Puppeteer.set_footerTemplate o1 = inr o2 ->
      render env (Puppeteer.FromUrl url) o2 = inl e ->
      failed e) /\
  (forall e u st0, http_get env u = inl e -> fst (getImageBase64 env u st0) = inl e).
Proof.
  intros Hurl name reply failed.
  assert (Hreply : reply =
                   inr match fst (get_job env url name query (log [EvRunOnPage] st)) with
                       | inr buffer => pdf_reply buffer
                       | inl error => get_error_reply error url
                       end).
  { subst reply. rewrite (get_handler_run env dflt query url st Hurl). reflexivity. }
  assert (Hfail : forall e,
             fst (get_job env url name query (log [EvRunOnPage] st)) = inl e -> failed e).
  { intros e He. subst failed. cbv beta. rewrite Hreply, He. reflexivity. }
  assert (Hinline : forall f u e,
             image_url env f = Some u -> http_get env u = inl e ->
             inline_result env f = inl e).
  { intros f u e Hu He. unfold inline_result. rewrite Hu, He. reflexivity. }
  repeat apply conj.
  - destruct (fst (get_job env url name query (log [EvRunOnPage] st))) as [e|buffer].
    + left. exists e. apply Hfail. reflexivity.
    + right. exists buffer. exact Hreply.
  - intros buffer Hpdf. rewrite Hreply in Hpdf.
    destruct (navigate env url) as [e|[]] eqn:Hnav.
    { rewrite (get_job_navigation_fails env url name query e _ Hnav) in Hpdf.
      discriminate. }
    split; [reflexivity|].
    destruct (preset_of env name) as [e|l] eqn:Hl.
    { rewrite (get_job_resolution_fails env url name query e _ Hnav Hl) in Hpdf.
      discriminate. }
    destruct (heap st !! l) as [o|] eqn:Ho.
    + rewrite (get_job_defined env url name query l o (log [EvRunOnPage] st) Hnav Hl Ho)
        in Hpdf.
      cbv zeta in Hpdf. cbn [default].
      destruct (after_fragment env (q_header query) Puppeteer.set_headerTemplate o)
        as [e|o1] eqn:H1; [discriminate|].
      destruct (after_fragment env (q_footer query) Puppeteer.set_footerTemplate o1)
        as [e|o2] eqn:H2; [discriminate|].
      cbn [fst] in Hpdf.
      destruct (render env (Puppeteer.FromUrl url) o2) as [e|b] eqn:Hr; [discriminate|].
      assert (b = buffer) as -> by (apply pdf_reply_injective; congruence).
      exists l, o1, o2. rewrite Ho. change (default Puppeteer.empty (Some o)) with o.
      split; [reflexivity|]. split; [exact H1|]. split; [exact H2 | exact Hr].
    + rewrite (get_job_undefined env url name query l (log [EvRunOnPage] st) Hnav Hl Ho)
        in Hpdf.
      destruct (truthy (q_header query)) as [h|] eqn:Hh; [discriminate|].
      destruct (truthy (q_footer query)) as [f|] eqn:Hf; [discriminate|].
      cbn [fst] in Hpdf.
      destruct (render env (Puppeteer.FromUrl url) Puppeteer.empty) as [e|b] eqn:Hr;
        [discriminate|].
      assert (b = buffer) as -> by (apply pdf_reply_injective; congruence).
      exists l, Puppeteer.empty, Puppeteer.empty. rewrite Ho.
      unfold after_fragment. rewrite Hh, Hf.
      split; [reflexivity|]. split; [reflexivity|]. split; [reflexivity | exact Hr].
  - intros e Hnav. apply Hfail.
    rewrite (get_job_navigation_fails env url name query e _ Hnav). reflexivity.
  - intros e Hnav Hl. apply Hfail.
    rewrite (get_job_resolution_fails env url name query e _ Hnav Hl). reflexivity.
  - intros l Hnav Hl Hnone Hsome. apply Hfail.
    rewrite (get_job_undefined env url name query l (log [EvRunOnPage] st) Hnav Hl Hnone).
    destruct (truthy (q_header query)); [reflexivity|].
    destruct (truthy (q_footer query)); [reflexivity|].
    destruct Hsome as [H|H]; contradiction.
  - intros e l o h u Hnav Hl Ho Hh Hu He. apply Hfail.
    rewrite (get_job_defined env url name query l o (log [EvRunOnPage] st) Hnav Hl Ho).
    cbv zeta. unfold after_fragment at 1. rewrite Hh, (Hinline h u e Hu He). reflexivity.
  - intros e l o o1 f u Hnav Hl Ho H1 Hf Hu He. apply Hfail.
    rewrite (get_job_defined env url name query l o (log [EvRunOnPage] st) Hnav Hl Ho).
    cbv zeta. rewrite H1. unfold after_fragment at 1.
    rewrite Hf, (Hinline f u e Hu He). reflexivity.
  - intros e l o1 o2 Hnav Hl Hobj H1 H2 Hr. apply Hfail.
    destruct (heap st !! l) as [o|] eqn:Ho.
    + rewrite (get_job_defined env url name query l o (log [EvRunOnPage] st) Hnav Hl Ho).
      cbv zeta. change (default Puppeteer.empty (Some o)) with o in H1.
      rewrite H1, H2. exact Hr.
    + destruct (Hobj eq_refl) as [Hh Hf].
      rewrite (get_job_undefined env url name query l (log [EvRunOnPage] st) Hnav Hl Ho).
      rewrite Hh, Hf. cbn [fst].
      assert (o2 = Puppeteer.empty) as <-; [|exact Hr].
      revert H1 H2. unfold after_fragment. rewrite Hh, Hf.
      change (default Puppeteer.empty None) with Puppeteer.empty.
      intros [= <-] [= <-]. reflexivity.
  - intros e u st0 He. rewrite getImageBase64_run, He. reflexivity.
Qed.

Lemma C5_witness :
  fst (get_handler Scenario.env "DEFAULT" Sample.by_url_down Sample.start) =
    inr (mkReply 500 []
           (Some (SendJson
                    (JObject [("error", JError (JsError "net::ERR_CONNECTION_REFUSED"));
                              ("url", JString "http://down.test/")])))) /\
  fst (get_handler Scenario.env "DEFAULT"
         (mkGetQuerystring (Some "http://heavy.test/") None (Some Sample.one_image)
            (Some Sample.no_image)) Sample.start) =
    inr (mkReply 500 []
           (Some (SendJson (JObject [("error", JError (JsError "TimeoutError"));
                                     ("url", JString "http://heavy.test/")])))).
Proof.
  split.
  - destruct (C5_failure_is_500_with_url Scenario.env "DEFAULT" Sample.by_url_down
                "http://down.test/" Sample.start eq_refl) as (_ & _ & Hnav & _).
    apply Hnav. reflexivity.
  - destruct (C5_failure_is_500_with_url Scenario.env "DEFAULT"
                (mkGetQuerystring (Some "http://heavy.test/") None (Some Sample.one_image)
                   (Some Sample.no_image))
                "http://heavy.test/" Sample.start eq_refl)
      as (_ & _ & _ & _ & _ & _ & _ & Hrender & _).
    eapply (Hrender (JsError "TimeoutError") 0); try reflexivity.
    intros H. vm_compute in H. discriminate.
Defined.

(** ** The registry across a request *)





